(** * youtube_transcript_fetcher.py: a shallow embedding and its properties

    The script has two functions, [fetch_transcript] and [main].  Both are
    embedded below as programs of a small state-and-exception monad over a
    [world] that records the calls made to the transcript library, the two
    output streams and the files written.  Everything the script does not
    define itself (the transcript library, the [json] module, the file
    system and how paths resolve in it, the standard output and its flush
    at exit, the interpreter's reports, [float] on values that are not
    floats) is a field of an environment record [Env], so every statement
    holds for any behaviour of those collaborators. *)

From Stdlib Require Import ZArith Ascii String List Floats.
From stdpp Require Import base option list strings gmap.

Local Open Scope string_scope.
Local Open Scope Z_scope.

(** ** Python values *)

(** The values [json.loads] can produce and [json.dump] can consume.  A
    [dict] is kept as its items in insertion order. *)
#[warnings="-register-all"]
Inductive pyval : Type :=
| PyNone
| PyBool (b : bool)
| PyInt (n : Z)
| PyFloat (x : float)
| PyStr (s : string)
| PyList (items : list pyval)
| PyDict (items : list (string * pyval)).

(** ** Exceptions *)

Inductive exn_class : Type :=
| TypeError
| KeyError
| JSONDecodeError
| OSError
| IndexError
| OtherException (name : string).

(** An instance of (a subclass of) [Exception]; [exn_str] is [str(e)]. *)
Record exn : Type := mkExn { exn_cls : exn_class; exn_str : string }.

(** What a [raise] can carry: an [Exception], or the [SystemExit] of
    [sys.exit], which derives from [BaseException] only. *)
Inductive raised : Type :=
| Exception (e : exn)
| SystemExit (code : Z).

(** ** Built-in operations on values *)

(** [bool(v)]. *)
Definition py_truthy (v : pyval) : bool :=
  match v with
  | PyNone => false
  | PyBool b => b
  | PyInt n => negb (n =? 0)
  | PyFloat x => negb (PrimFloat.eqb x 0%float)
  | PyStr s => negb (String.eqb s "")
  | PyList items => match items with [] => false | _ => true end
  | PyDict items => match items with [] => false | _ => true end
  end.

(** [type(v).__name__]. *)
Definition py_type_name (v : pyval) : string :=
  match v with
  | PyNone => "NoneType"
  | PyBool _ => "bool"
  | PyInt _ => "int"
  | PyFloat _ => "float"
  | PyStr _ => "str"
  | PyList _ => "list"
  | PyDict _ => "dict"
  end.

(** [needle in haystack] on strings. *)
Definition str_contains (haystack needle : string) : bool :=
  match String.index 0 needle haystack with
  | Some _ => true
  | None => false
  end.

(** [v == key] for a string [key]. *)
Definition py_eq_str (v : pyval) (key : string) : bool :=
  match v with
  | PyStr s => String.eqb s key
  | _ => false
  end.

(** [key in items] for the items of a dict. *)
Definition dict_has (items : list (string * pyval)) (key : string) : bool :=
  existsb (fun kv => String.eqb kv.1 key) items.

(** [items[key]] for the items of a dict. *)
Fixpoint dict_get (items : list (string * pyval)) (key : string) : option pyval :=
  match items with
  | [] => None
  | (k, v) :: rest => if String.eqb k key then Some v else dict_get rest key
  end.

(** [key in v] for a string [key]: substring test on a [str], element test
    on a [list], key test on a [dict], [TypeError] on everything else. *)
Definition py_contains (key : string) (v : pyval) : exn + bool :=
  match v with
  | PyStr s => inr (str_contains s key)
  | PyList items => inr (existsb (fun x => py_eq_str x key) items)
  | PyDict items => inr (dict_has items key)
  | _ => inl (mkExn TypeError
                ("argument of type '" ++ py_type_name v ++ "' is not iterable"))
  end.

(** [v[key]] for a string [key]. *)
Definition py_getitem (v : pyval) (key : string) : exn + pyval :=
  match v with
  | PyDict items =>
      match dict_get items key with
      | Some x => inr x
      | None => inl (mkExn KeyError ("'" ++ key ++ "'"))
      end
  | PyStr _ =>
      inl (mkExn TypeError "string indices must be integers, not 'str'")
  | PyList _ =>
      inl (mkExn TypeError "list indices must be integers or slices, not str")
  | _ =>
      inl (mkExn TypeError
             ("'" ++ py_type_name v ++ "' object is not subscriptable"))
  end.

(** ** The transcript library's data *)

(** [FetchedTranscriptSnippet]: the library declares [text: str],
    [start: float], [duration: float]. *)
Record FetchedTranscriptSnippet : Type := mkSnippet {
  text : string;
  start : float;
  duration : float
}.

(** What [ytt_api.fetch] hands back: a [FetchedTranscript], iterable over
    its snippets and sized by them, or nothing at all. *)
Inductive fetched : Type :=
| NoTranscript
| FetchedTranscript (snippets : list FetchedTranscriptSnippet).

(** [bool(transcript_list)]. *)
Definition fetched_truthy (t : fetched) : bool :=
  match t with
  | NoTranscript => false
  | FetchedTranscript [] => false
  | FetchedTranscript (_ :: _) => true
  end.

(** The snippets [for snippet in transcript_list] runs over; none when
    there is no transcript. *)
Definition fetched_iter (t : fetched) : list FetchedTranscriptSnippet :=
  match t with
  | NoTranscript => []
  | FetchedTranscript snippets => snippets
  end.

(** ** The world and the monad *)

(** A call into the transcript library, as the script spells it. *)
Inductive call : Type :=
| CallWebshareProxyConfig (proxy_username proxy_password : pyval)
| CallYouTubeTranscriptApi (with_proxy : bool)
| CallFetch (with_proxy : bool) (video_id : string).

Record world : Type := mkWorld {
  calls : list call;            (* library calls so far, oldest first *)
  stdout : list string;         (* lines taken in by sys.stdout *)
  stderr : list string;         (* texts written to sys.stderr *)
  files : gmap string string    (* file, as paths resolve to it, to content *)
}.

Inductive outcome (A : Type) : Type :=
| Ret (a : A)
| Raise (r : raised).
Arguments Ret {A} a.
Arguments Raise {A} r.

Definition M (A : Type) : Type := world -> world * outcome A.

Definition ret {A} (a : A) : M A := fun w => (w, Ret a).

Definition bind {A B} (m : M A) (k : A -> M B) : M B :=
  fun w =>
    match m w with
    | (w', Ret a) => k a w'
    | (w', Raise r) => (w', Raise r)
    end.

Definition raise {A} (r : raised) : M A := fun w => (w, Raise r).

(** A built-in or library result: an [Exception] or a value. *)
Definition lift {A} (r : exn + A) : M A :=
  match r with
  | inl e => raise (Exception e)
  | inr a => ret a
  end.

(** [try: body  except Exception as e: handler(e)].  [SystemExit] is not an
    [Exception] and passes through. *)
Definition try_except_Exception {A} (body : M A) (handler : exn -> M A) : M A :=
  fun w =>
    match body w with
    | (w', Raise (Exception e)) => handler e w'
    | other => other
    end.

(** [try: body  except cls: handler]: only exceptions of class [cls]. *)
Definition try_except_class {A} (is_cls : exn_class -> bool)
    (body : M A) (handler : M A) : M A :=
  fun w =>
    match body w with
    | (w', Raise (Exception e)) =>
        if is_cls (exn_cls e) then handler w' else (w', Raise (Exception e))
    | other => other
    end.

Declare Scope py_scope.
Delimit Scope py_scope with py.
Notation "'let*' x := m 'in' k" := (bind m (fun x => k))
  (at level 10, x name, m at level 100, k at level 200) : py_scope.
Notation "'do' m 'then' k" := (bind m (fun _ => k))
  (at level 10, m at level 100, k at level 200) : py_scope.
Local Open Scope py_scope.

Definition log_call (c : call) : M unit :=
  fun w => (mkWorld (calls w ++ [c]) (stdout w) (stderr w) (files w), Ret tt).

(** A line taken in by [sys.stdout]. *)
Definition put_stdout (line : string) : M unit :=
  fun w => (mkWorld (calls w) (stdout w ++ [line]) (stderr w) (files w), Ret tt).

(** [print(line, file=sys.stderr)], or a report of the interpreter.  The
    error stream is written through, with a handler that escapes what it
    cannot encode; it is taken never to refuse a text. *)
Definition print_stderr (line : string) : M unit :=
  fun w => (mkWorld (calls w) (stdout w) (stderr w ++ [line]) (files w), Ret tt).

(** [sys.exit(code)]. *)
Definition sys_exit {A} (code : Z) : M A := raise (SystemExit code).

(** The file [file] now holds [content]. *)
Definition set_file (file content : string) : M unit :=
  fun w => (mkWorld (calls w) (stdout w) (stderr w) (<[file := content]> (files w)),
            Ret tt).

(** ** The environment *)

(** Everything the script imports or inherits from the interpreter.  The
    library and the operating system raise instances of [Exception]. *)
Record Env : Type := mkEnv {
  proxy_t : Type;
  client_t : Type;
  (* youtube_transcript_api *)
  WebshareProxyConfig : pyval -> pyval -> exn + proxy_t;
  YouTubeTranscriptApi : option proxy_t -> exn + client_t;
  fetch : client_t -> string -> exn + fetched;
  (* float(v) for a v that is not already a float *)
  float_convert : pyval -> exn + float;
  (* json.loads(s) *)
  json_loads : string -> exn + pyval;
  (* the text json.dump(obj, f, ensure_ascii=.., indent=..) sends to f *)
  json_dump_text : bool -> option nat -> pyval -> string;
  (* open(path, 'w', encoding=..): the exception raised, if any *)
  open_for_writing : string -> string -> option exn;
  (* writing and closing the opened file: the exception raised and the
     text that reached the file before it, if any *)
  write_and_close : string -> string -> option (exn * string);
  (* the file a path names: two spellings of one file resolve alike *)
  resolve_path : string -> string;
  (* print(line) on sys.stdout: the exception raised, if any, and whether
     the line stayed in the stream's buffer all the same *)
  stdout_print : string -> option (exn * bool);
  (* the flush of sys.stdout as the interpreter exits with lines of the
     run in the stream: the exception raised, if any *)
  exit_flush : option exn;
  (* the report the interpreter writes for an uncaught exception *)
  excepthook_text : exn -> string;
  (* the report it writes for an exception it can only ignore *)
  unraisable_text : exn -> string
}.

(** [float(v)]. *)
Definition py_float (E : Env) (v : pyval) : exn + float :=
  match v with
  | PyFloat x => inr x
  | _ => float_convert E v
  end.

(** ** The script *)

Section Script.
Context (E : Env).

Definition call_WebshareProxyConfig (proxy_username proxy_password : pyval)
    : M (proxy_t E) :=
  do log_call (CallWebshareProxyConfig proxy_username proxy_password) then
  lift (WebshareProxyConfig E proxy_username proxy_password).

Definition call_YouTubeTranscriptApi (proxy_config : option (proxy_t E))
    : M (client_t E) :=
  do log_call (CallYouTubeTranscriptApi (bool_decide (is_Some proxy_config))) then
  lift (YouTubeTranscriptApi E proxy_config).

Definition call_fetch (with_proxy : bool) (ytt_api : client_t E)
    (video_id : string) : M fetched :=
  do log_call (CallFetch with_proxy video_id) then
  lift (fetch E ytt_api video_id).

(** Line 29: [proxy_config and 'proxy_username' in proxy_config and
    'proxy_password' in proxy_config], left to right with short circuit. *)
Definition proxy_requested (proxy_config : pyval) : M bool :=
  if py_truthy proxy_config then
    let* has_username := lift (py_contains "proxy_username" proxy_config) in
    if has_username then lift (py_contains "proxy_password" proxy_config)
    else ret false
  else ret false.

(** Lines 29-46: build a client, with or without proxy, and fetch. *)
Definition fetch_transcript_acquire (video_id : string) (proxy_config : pyval)
    : M fetched :=
  let* use_proxy := proxy_requested proxy_config in
  if use_proxy then
    let* proxy_username := lift (py_getitem proxy_config "proxy_username") in
    let* proxy_password := lift (py_getitem proxy_config "proxy_password") in
    let* proxy_config_obj := call_WebshareProxyConfig proxy_username proxy_password in
    let* ytt_api := call_YouTubeTranscriptApi (Some proxy_config_obj) in
    call_fetch true ytt_api video_id
  else
    let* ytt_api := call_YouTubeTranscriptApi None in
    call_fetch false ytt_api video_id.

(** Lines 55-59: the dictionary built for one snippet. *)
Definition snippet_dict (snippet : FetchedTranscriptSnippet) : pyval :=
  PyDict [("text", PyStr (text snippet));
          ("start", PyFloat (start snippet));
          ("duration", PyFloat (duration snippet))].

(** Lines 50-60: [snippets_list] after the loop. *)
Definition build_snippets_list (transcript_list : fetched) : list pyval :=
  if fetched_truthy transcript_list
  then snippet_dict <$> fetched_iter transcript_list
  else [].

(** Lines 49 and 62-65: [total_duration]. *)
Definition compute_total_duration (transcript_list : fetched)
    (snippets_list : list pyval) : M pyval :=
  if fetched_truthy transcript_list then
    match last snippets_list with
    | Some last_snippet =>
        let* s := lift (py_getitem last_snippet "start") in
        let* s_float := lift (py_float E s) in
        let* d := lift (py_getitem last_snippet "duration") in
        let* d_float := lift (py_float E d) in
        ret (PyFloat (PrimFloat.add s_float d_float))
    | None => ret (PyInt 0)
    end
  else ret (PyInt 0).

(** Lines 48-76: shape the fetched transcript into the success record. *)
Definition fetch_transcript_shape (video_id : string) (transcript_list : fetched)
    : M pyval :=
  let snippets_list := build_snippets_list transcript_list in
  let* total_duration := compute_total_duration transcript_list snippets_list in
  ret (PyDict [("video_id", PyStr video_id);
               ("snippets", PyList snippets_list);
               ("total_duration", total_duration);
               ("snippet_count", PyInt (Z.of_nat (List.length snippets_list)));
               ("success", PyBool true)]).

(** Lines 79-83: the record returned from the handler. *)
Definition failure_record (video_id : string) (e : exn) : pyval :=
  PyDict [("video_id", PyStr video_id);
          ("error", PyStr (exn_str e));
          ("success", PyBool false)].

Definition fetch_transcript (video_id : string) (proxy_config : pyval) : M pyval :=
  try_except_Exception
    (let* transcript_list := fetch_transcript_acquire video_id proxy_config in
     fetch_transcript_shape video_id transcript_list)
    (fun e => ret (failure_record video_id e)).

(** [sys.argv[i]]. *)
Definition argv_get (argv : list string) (i : nat) : M string :=
  match argv !! i with
  | Some a => ret a
  | None => raise (Exception (mkExn IndexError "list index out of range"))
  end.

Definition is_JSONDecodeError (c : exn_class) : bool :=
  match c with
  | JSONDecodeError => true
  | _ => false
  end.

Definition usage_message : string :=
  "Usage: python youtube_transcript_fetcher.py <video_id> <output_file> [proxy_config_json]".

(** [open(path, 'w', encoding=enc)]: raises, or leaves an empty file. *)
Definition open_w (path enc : string) : M unit :=
  match open_for_writing E path enc with
  | Some e => raise (Exception e)
  | None => set_file (resolve_path E path) ""
  end.

(** Sending [content] to the opened file and leaving the [with] block. *)
Definition write_w (path content : string) : M unit :=
  match write_and_close E path content with
  | Some (e, reached) =>
      do set_file (resolve_path E path) reached then raise (Exception e)
  | None => set_file (resolve_path E path) content
  end.

(** [print(line)]: the line is taken in, or the call raises. *)
Definition print_stdout (line : string) : M unit :=
  match stdout_print E line with
  | None => put_stdout line
  | Some (e, kept) =>
      do (if kept then put_stdout line else ret tt) then raise (Exception e)
  end.

Definition main (argv : list string) : M unit :=
  do (if Nat.ltb (List.length argv) 3 then
        do print_stderr usage_message then sys_exit 1
      else ret tt) then
  let* video_id := argv_get argv 1 in
  let* output_file := argv_get argv 2 in
  let* proxy_config :=
    (if Nat.ltb 3 (List.length argv) then
       try_except_class is_JSONDecodeError
         (let* arg := argv_get argv 3 in lift (json_loads E arg))
         (do print_stderr "Invalid proxy configuration JSON" then sys_exit 1)
     else ret PyNone) in
  let* result := fetch_transcript video_id proxy_config in
  try_except_Exception
    (do open_w output_file "utf-8" then
     do write_w output_file (json_dump_text E false (Some 2%nat) result) then
     print_stdout ("Transcript data written to " ++ output_file))
    (fun e =>
       do print_stderr ("Error writing to output file: " ++ exn_str e) then
       sys_exit 1).

(** How [main] ends the process: a normal return with status 0,
    [sys.exit(code)] with [code]; an uncaught [Exception] has the
    interpreter report it on the error stream and end with status 1. *)
Definition end_of_main (r : world * outcome unit) : world * Z :=
  match r with
  | (w', Ret _) => (w', 0)
  | (w', Raise (SystemExit code)) => (w', code)
  | (w', Raise (Exception e)) => ((print_stderr (excepthook_text E e) w').1, 1)
  end.

(** The interpreter's exit after a run begun in [w]: lines the run left
    in [sys.stdout] are flushed, and a flush that fails is reported and
    turns the status into 120. *)
Definition finalize (w : world) (r : world * Z) : world * Z :=
  match drop (List.length (stdout w)) (stdout r.1) with
  | [] => r
  | _ :: _ =>
      match exit_flush E with
      | None => r
      | Some e => ((print_stderr (unraisable_text E e) r.1).1, 120)
      end
  end.

(** Lines 115-116: the process. *)
Definition run_script (argv : list string) (w : world) : world * Z :=
  finalize w (end_of_main (main argv w)).

End Script.

(** ** Vocabulary of the statements *)

(** A computation that can end in an [Exception] or a value, never in
    [SystemExit]. *)
Definition no_exit {A} (m : M A) : Prop :=
  forall w w' code, m w <> (w', Raise (SystemExit code)).

(** [total_duration] read off the fetched snippets. *)
Definition total_duration_of (snippets : list FetchedTranscriptSnippet) : pyval :=
  match last snippets with
  | Some s => PyFloat (PrimFloat.add (start s) (duration s))
  | None => PyInt 0
  end.

(** The success record for a given list of fetched snippets. *)
Definition success_record (video_id : string)
    (snippets : list FetchedTranscriptSnippet) : pyval :=
  PyDict [("video_id", PyStr video_id);
          ("snippets", PyList (snippet_dict <$> snippets));
          ("total_duration", total_duration_of snippets);
          ("snippet_count", PyInt (Z.of_nat (List.length snippets)));
          ("success", PyBool true)].

(** The calls [w'] has beyond those of [w]. *)
Definition new_calls (w w' : world) : list call :=
  drop (List.length (calls w)) (calls w').

(** The spec's reading of the credentials test: [proxy_config] is present
    and is a mapping that holds both keys. *)
Definition spec_has_credentials (proxy_config : pyval) : bool :=
  match proxy_config with
  | PyDict items =>
      dict_has items "proxy_username" && dict_has items "proxy_password"
  | _ => false
  end.

Definition is_proxy_call (c : call) : bool :=
  match c with
  | CallWebshareProxyConfig _ _ => true
  | CallYouTubeTranscriptApi with_proxy => with_proxy
  | CallFetch with_proxy _ => with_proxy
  end.

(** The proxy client is constructed and used: the proxy configuration is
    built, the client is built with it, and the fetch goes through it. *)
Definition uses_proxy_client (video_id : string) (trace : list call) : bool :=
  match trace with
  | [CallWebshareProxyConfig _ _; CallYouTubeTranscriptApi true;
     CallFetch true v] => String.eqb v video_id
  | _ => false
  end.

(** The default path: the first call builds the client without proxy. *)
Definition uses_default_client (trace : list call) : bool :=
  match trace with
  | CallYouTubeTranscriptApi false :: _ => true
  | _ => false
  end.

Definition proxy_never_invoked (trace : list call) : bool :=
  forallb (fun c => negb (is_proxy_call c)) trace.

(** The choice of client as the spec words it: the proxy client exactly
    when the credentials are there, the default client with no proxy call
    in every other case. *)
Definition proxy_choice_spec (E : Env) (video_id : string)
    (proxy_config : pyval) (w : world) : Prop :=
  let trace := new_calls w (fetch_transcript E video_id proxy_config w).1 in
  (uses_proxy_client video_id trace = true <->
   spec_has_credentials proxy_config = true) /\
  (spec_has_credentials proxy_config = false ->
   uses_default_client trace = true /\ proxy_never_invoked trace = true).

(** A computation that touches nothing of the world but the call log. *)
Definition only_calls {A} (m : M A) : Prop :=
  forall w,
    stdout (m w).1 = stdout w /\ stderr (m w).1 = stderr w /\
    files (m w).1 = files w.

(** The third argument, when there is one, parses to [proxy_config];
    without one [proxy_config] is [None]. *)
Definition proxy_argument (E : Env) (rest : list string) (proxy_config : pyval)
    : Prop :=
  match rest with
  | [] => proxy_config = PyNone
  | arg :: _ => json_loads E arg = inr proxy_config
  end.

(** The world after a line went to the error stream. *)
Definition with_stderr (w : world) (line : string) : world :=
  mkWorld (calls w) (stdout w) (stderr w ++ [line]) (files w).

(** The world after [trace] was appended to the call log. *)
Definition with_calls (w : world) (trace : list call) : world :=
  mkWorld (calls w ++ trace) (stdout w) (stderr w) (files w).

(** The library calls one run of lines 29-46 can make, and whether the run
    can have returned a transcript ([true]) or must have raised. *)
Inductive acquire_shape (video_id : string) : list call -> bool -> Prop :=
| shape_nothing :
    acquire_shape video_id [] false
| shape_default_client :
    acquire_shape video_id [CallYouTubeTranscriptApi false] false
| shape_default_fetch (returned : bool) :
    acquire_shape video_id
      [CallYouTubeTranscriptApi false; CallFetch false video_id] returned
| shape_proxy_config (u p : pyval) :
    acquire_shape video_id [CallWebshareProxyConfig u p] false
| shape_proxy_client (u p : pyval) :
    acquire_shape video_id
      [CallWebshareProxyConfig u p; CallYouTubeTranscriptApi true] false
| shape_proxy_fetch (u p : pyval) (returned : bool) :
    acquire_shape video_id
      [CallWebshareProxyConfig u p; CallYouTubeTranscriptApi true;
       CallFetch true video_id] returned.

Definition is_ret {A} (o : outcome A) : bool :=
  match o with
  | Ret _ => true
  | Raise _ => false
  end.

Definition is_fetch_call (c : call) : bool :=
  match c with
  | CallFetch _ _ => true
  | _ => false
  end.

Definition is_client_call (c : call) : bool :=
  match c with
  | CallYouTubeTranscriptApi _ => true
  | _ => false
  end.

(** [proxy_config] sends line 29 to the [else] branch. *)
Definition takes_default_path (proxy_config : pyval) : Prop :=
  py_truthy proxy_config = false \/
  py_contains "proxy_username" proxy_config = inr false \/
  py_contains "proxy_password" proxy_config = inr false.

(** [proxy_config] passes line 29, and lines 32-33 read the credentials
    [u] and [p] from it. *)
Definition takes_proxy_path (proxy_config u p : pyval) : Prop :=
  py_truthy proxy_config = true /\
  py_contains "proxy_username" proxy_config = inr true /\
  py_contains "proxy_password" proxy_config = inr true /\
  py_getitem proxy_config "proxy_username" = inr u /\
  py_getitem proxy_config "proxy_password" = inr p.

(** A call into the library, made for [video_id] and [proxy_config],
    raises [e]: building a client or fetching, on either path. *)
Inductive library_raises (E : Env) (video_id : string) (proxy_config : pyval)
    (e : exn) : Prop :=
| default_client_raises :
    takes_default_path proxy_config ->
    YouTubeTranscriptApi E None = inl e ->
    library_raises E video_id proxy_config e
| default_fetch_raises (ytt_api : client_t E) :
    takes_default_path proxy_config ->
    YouTubeTranscriptApi E None = inr ytt_api ->
    fetch E ytt_api video_id = inl e ->
    library_raises E video_id proxy_config e
| proxy_config_raises (u p : pyval) :
    takes_proxy_path proxy_config u p ->
    WebshareProxyConfig E u p = inl e ->
    library_raises E video_id proxy_config e
| proxy_client_raises (u p : pyval) (obj : proxy_t E) :
    takes_proxy_path proxy_config u p ->
    WebshareProxyConfig E u p = inr obj ->
    YouTubeTranscriptApi E (Some obj) = inl e ->
    library_raises E video_id proxy_config e
| proxy_fetch_raises (u p : pyval) (obj : proxy_t E) (ytt_api : client_t E) :
    takes_proxy_path proxy_config u p ->
    WebshareProxyConfig E u p = inr obj ->
    YouTubeTranscriptApi E (Some obj) = inr ytt_api ->
    fetch E ytt_api video_id = inl e ->
    library_raises E video_id proxy_config e.

(** The library's [fetch], called for [video_id] on the client built for
    [proxy_config], returns [t]. *)
Inductive library_returns (E : Env) (video_id : string) (proxy_config : pyval)
    (t : fetched) : Prop :=
| default_fetch_returns (ytt_api : client_t E) :
    takes_default_path proxy_config ->
    YouTubeTranscriptApi E None = inr ytt_api ->
    fetch E ytt_api video_id = inr t ->
    library_returns E video_id proxy_config t
| proxy_fetch_returns (u p : pyval) (obj : proxy_t E) (ytt_api : client_t E) :
    takes_proxy_path proxy_config u p ->
    WebshareProxyConfig E u p = inr obj ->
    YouTubeTranscriptApi E (Some obj) = inr ytt_api ->
    fetch E ytt_api video_id = inr t ->
    library_returns E video_id proxy_config t.

(** The library builds the proxy configuration and the proxy client from
    the credentials of [proxy_config] without raising. *)
Definition proxy_client_built (E : Env) (proxy_config : pyval) : Prop :=
  exists u p obj ytt_api,
    py_getitem proxy_config "proxy_username" = inr u /\
    py_getitem proxy_config "proxy_password" = inr p /\
    WebshareProxyConfig E u p = inr obj /\
    YouTubeTranscriptApi E (Some obj) = inr ytt_api.

(** The world after some texts went to the error stream. *)
Definition with_reports (w : world) (reports : list string) : world :=
  mkWorld (calls w) (stdout w) (stderr w ++ reports) (files w).

(** Lines 107-113 and the exit, on the world [w1] the fetch left: what
    the write of [content] to [output_file] leaves behind, and the exit
    status. *)
Definition write_report (E : Env) (output_file content : string) (w1 : world)
    : world * Z :=
  let file := resolve_path E output_file in
  let line := "Transcript data written to " ++ output_file in
  let complaint e := "Error writing to output file: " ++ exn_str e in
  match open_for_writing E output_file "utf-8" with
  | Some e => (with_reports w1 [complaint e], 1)
  | None =>
      match write_and_close E output_file content with
      | Some (e, reached) =>
          (mkWorld (calls w1) (stdout w1) (stderr w1 ++ [complaint e])
             (<[file := reached]> (files w1)), 1)
      | None =>
          let written := <[file := content]> (files w1) in
          match stdout_print E line with
          | None =>
              match exit_flush E with
              | None =>
                  (mkWorld (calls w1) (stdout w1 ++ [line]) (stderr w1) written, 0)
              | Some e' =>
                  (mkWorld (calls w1) (stdout w1 ++ [line])
                     (stderr w1 ++ [unraisable_text E e']) written, 120)
              end
          | Some (e, false) =>
              (mkWorld (calls w1) (stdout w1) (stderr w1 ++ [complaint e])
                 written, 1)
          | Some (e, true) =>
              match exit_flush E with
              | None =>
                  (mkWorld (calls w1) (stdout w1 ++ [line])
                     (stderr w1 ++ [complaint e]) written, 1)
              | Some e' =>
                  (mkWorld (calls w1) (stdout w1 ++ [line])
                     (stderr w1 ++ [complaint e; unraisable_text E e'])
                     written, 120)
              end
          end
      end
  end.


(** ** Stand-ins for the collaborators

    A stub library in the manner of the spec's test scenarios: clients are
    always built, [fetch] answers with a fixed result, and [json.loads]
    knows a handful of texts. *)

Module Stub.

Definition quoted (s : string) : string :=
  String "034"%char s ++ String "034"%char "".

(** The text of a JSON object holding both credentials. *)
Definition credentials_json : string :=
  "{" ++ quoted "proxy_username" ++ ": " ++ quoted "u" ++ ", "
      ++ quoted "proxy_password" ++ ": " ++ quoted "p" ++ "}".

Definition stub_loads (s : string) : exn + pyval :=
  if String.eqb s "5" then inr (PyInt 5)
  else if String.eqb s "{}" then inr (PyDict [])
  else if String.eqb s credentials_json
       then inr (PyDict [("proxy_username", PyStr "u"); ("proxy_password", PyStr "p")])
  else inl (mkExn JSONDecodeError "Expecting value: line 1 column 1 (char 0)").

Definition stub_dump (ensure_ascii : bool) (indent : option nat) (v : pyval)
    : string :=
  match py_getitem v "success" with
  | inr (PyBool true) => "{success}"
  | _ => "{failure}"
  end.

(** A leading [./] names the same file as the path without it. *)
Definition stub_resolve (path : string) : string :=
  match path with
  | String "."%char (String "/"%char rest) => rest
  | _ => path
  end.

Definition stub_report (e : exn) : string := "report: " ++ exn_str e.

(** The stub with each collaborator's answer fixed. *)
Definition env_full (proxy_result : exn + unit) (fetch_result : exn + fetched)
    (loads : string -> exn + pyval) (open_result : option exn)
    (print_result : option (exn * bool)) (flush_result : option exn) : Env :=
  mkEnv unit unit
    (fun _ _ => proxy_result)
    (fun _ => inr tt)
    (fun _ _ => fetch_result)
    (fun _ => inl (mkExn TypeError "float() argument must be a string or a real number"))
    loads
    stub_dump
    (fun _ _ => open_result)
    (fun _ _ => None)
    stub_resolve
    (fun _ => print_result)
    flush_result
    stub_report
    stub_report.

Definition env (fetch_result : exn + fetched) (open_result : option exn) : Env :=
  env_full (inr tt) fetch_result stub_loads open_result None None.

Definition w0 : world := mkWorld [] [] [] ∅.

Definition hi : FetchedTranscriptSnippet := mkSnippet "hi" 0%float 1.5%float.

Definition env_hi : Env := env (inr (FetchedTranscript [hi])) None.

Definition env_unavailable : Env :=
  env (inl (mkExn (OtherException "VideoUnavailable") "video unavailable")) None.

Definition env_read_only : Env :=
  env (inr (FetchedTranscript [hi]))
      (Some (mkExn OSError "[Errno 13] Permission denied: 'out.json'")).

(** The world after one default-client fetch of ["abc123"] from [w0]. *)
Definition w_fetched : world :=
  mkWorld [CallYouTubeTranscriptApi false; CallFetch false "abc123"] [] [] ∅.

Definition credentials : pyval :=
  PyDict [("proxy_username", PyStr "u"); ("proxy_password", PyStr "p")].

Definition not_iterable : exn :=
  mkExn TypeError "argument of type 'int' is not iterable".

Definition unavailable : exn :=
  mkExn (OtherException "VideoUnavailable") "video unavailable".

Definition bad_json : exn :=
  mkExn JSONDecodeError "Expecting value: line 1 column 1 (char 0)".

(** [json.loads] giving up on a text nested too deep. *)
Definition too_deep : exn :=
  mkExn (OtherException "RecursionError")
    "maximum recursion depth exceeded while decoding a JSON array".

Definition env_too_deep : Env :=
  env_full (inr tt) (inr (FetchedTranscript [hi])) (fun _ => inl too_deep)
    None None None.

(** A standard output that cannot encode the confirmation. *)
Definition cannot_encode : exn :=
  mkExn (OtherException "UnicodeEncodeError")
    "'ascii' codec can't encode character".

Definition env_stdout_refuses : Env :=
  env_full (inr tt) (inr (FetchedTranscript [hi])) stub_loads
    None (Some (cannot_encode, false)) None.

(** A standard output that takes the line in and fails to flush it at
    exit. *)
Definition broken_pipe : exn := mkExn OSError "[Errno 32] Broken pipe".

Definition env_flush_fails : Env :=
  env_full (inr tt) (inr (FetchedTranscript [hi])) stub_loads
    None None (Some broken_pipe).

(** A proxy configuration the library refuses to build. *)
Definition refused : exn :=
  mkExn (OtherException "InvalidProxyConfig") "proxy credentials refused".

Definition env_proxy_refused : Env :=
  env_full (inl refused) (inr (FetchedTranscript [hi])) stub_loads
    None None None.

(** The world after the proxy configuration was asked for from [w0]. *)
Definition w_refused : world :=
  mkWorld [CallWebshareProxyConfig (PyStr "u") (PyStr "p")] [] [] ∅.

Definition both_names : pyval := PyStr "proxy_username proxy_password".

Definition indices_error : exn :=
  mkExn TypeError "string indices must be integers, not 'str'".

End Stub.

(** ** Running the monad *)

Lemma bind_ret {A B} (m : M A) (k : A -> M B) (w w' : world) (a : A) :
  m w = (w', Ret a) -> bind m k w = k a w'.
Proof. intros H. unfold bind. now rewrite H. Qed.

Lemma bind_raise {A B} (m : M A) (k : A -> M B) (w w' : world) (r : raised) :
  m w = (w', Raise r) -> bind m k w = (w', Raise r).
Proof. intros H. unfold bind. now rewrite H. Qed.

Lemma try_except_ret {A} (body : M A) (h : exn -> M A) (w w' : world) (a : A) :
  body w = (w', Ret a) -> try_except_Exception body h w = (w', Ret a).
Proof. intros H. unfold try_except_Exception. now rewrite H. Qed.

Lemma try_except_caught {A} (body : M A) (h : exn -> M A) (w w' : world) (e : exn) :
  body w = (w', Raise (Exception e)) -> try_except_Exception body h w = h e w'.
Proof. intros H. unfold try_except_Exception. now rewrite H. Qed.

Lemma no_exit_lift {A} (r : exn + A) : no_exit (lift r).
Proof. intros w w' code. destruct r; cbv; congruence. Qed.

Lemma no_exit_ret {A} (a : A) : no_exit (ret a).
Proof. intros w w' code. cbv. congruence. Qed.

Lemma no_exit_log_call (c : call) : no_exit (log_call c).
Proof. intros w w' code. unfold log_call. congruence. Qed.

Lemma no_exit_bind {A B} (m : M A) (k : A -> M B) :
  no_exit m -> (forall a, no_exit (k a)) -> no_exit (bind m k).
Proof.
  intros Hm Hk w w' code. unfold bind.
  destruct (m w) as [w1 [a | [e | c]]] eqn:Hmw.
  - apply Hk.
  - congruence.
  - exfalso. exact (Hm _ _ _ Hmw).
Qed.

Lemma no_exit_if {A} (b : bool) (m1 m2 : M A) :
  no_exit m1 -> no_exit m2 -> no_exit (if b then m1 else m2).
Proof. now destruct b. Qed.

Ltac no_exit_tac :=
  repeat first
    [ apply no_exit_bind; [ | intros ? ]
    | apply no_exit_if
    | apply no_exit_lift
    | apply no_exit_ret
    | apply no_exit_log_call ].

(** ** The shaping half of [fetch_transcript] *)

Section ShapeFacts.
Context (E : Env).

Lemma build_snippets_list_iter (t : fetched) :
  build_snippets_list t = snippet_dict <$> fetched_iter t.
Proof. destruct t as [| [| s l]]; reflexivity. Qed.

Lemma fetched_truthy_iter (t : fetched) :
  fetched_truthy t = false -> fetched_iter t = [].
Proof. destruct t as [| [| s l]]; simpl; congruence. Qed.

Lemma compute_total_duration_run (t : fetched) (w : world) :
  compute_total_duration E t (build_snippets_list t) w
  = (w, Ret (total_duration_of (fetched_iter t))).
Proof.
  unfold compute_total_duration, total_duration_of.
  destruct (fetched_truthy t) eqn:Ht.
  - rewrite build_snippets_list_iter, fmap_last.
    destruct (last (fetched_iter t)) as [s |]; reflexivity.
  - now rewrite (fetched_truthy_iter t Ht).
Qed.

Lemma fetch_transcript_shape_run (video_id : string) (t : fetched) (w : world) :
  fetch_transcript_shape E video_id t w
  = (w, Ret (success_record video_id (fetched_iter t))).
Proof.
  unfold fetch_transcript_shape.
  rewrite (bind_ret _ _ _ _ _ (compute_total_duration_run t w)).
  unfold ret, success_record.
  now rewrite build_snippets_list_iter, length_fmap.
Qed.

Lemma no_exit_acquire (video_id : string) (proxy_config : pyval) :
  no_exit (fetch_transcript_acquire E video_id proxy_config).
Proof.
  unfold fetch_transcript_acquire, proxy_requested, call_WebshareProxyConfig,
    call_YouTubeTranscriptApi, call_fetch.
  no_exit_tac.
Qed.

(** [fetch_transcript] is decided by its first half: a fetched transcript
    gives the success record, an exception the failure record. *)
Lemma fetch_transcript_run (video_id : string) (proxy_config : pyval) (w : world) :
  (exists w' t,
     fetch_transcript_acquire E video_id proxy_config w = (w', Ret t) /\
     fetch_transcript E video_id proxy_config w
     = (w', Ret (success_record video_id (fetched_iter t)))) \/
  (exists w' e,
     fetch_transcript_acquire E video_id proxy_config w = (w', Raise (Exception e)) /\
     fetch_transcript E video_id proxy_config w
     = (w', Ret (failure_record video_id e))).
Proof.
  unfold fetch_transcript.
  destruct (fetch_transcript_acquire E video_id proxy_config w)
    as [w' [t | [e | code]]] eqn:Hacq.
  - left. exists w', t. split; [reflexivity |].
    apply try_except_ret.
    rewrite (bind_ret _ _ _ _ _ Hacq). apply fetch_transcript_shape_run.
  - right. exists w', e. split; [reflexivity |].
    rewrite (try_except_caught _ _ w w' e); [reflexivity |].
    now apply bind_raise.
  - exfalso. exact (no_exit_acquire _ _ _ _ _ Hacq).
Qed.

End ShapeFacts.

(** ** Properties of [fetch_transcript] *)

Section FetchTranscriptFacts.
Context (E : Env).

(** A returned success record is the shaping of what the fetch gave. *)
Lemma fetch_transcript_success_inv (video_id : string) (proxy_config : pyval)
    (w w' : world) (r : pyval) :
  fetch_transcript E video_id proxy_config w = (w', Ret r) ->
  py_getitem r "success" = inr (PyBool true) ->
  exists t,
    fetch_transcript_acquire E video_id proxy_config w = (w', Ret t) /\
    r = success_record video_id (fetched_iter t).
Proof.
  intros Hrun Hsucc.
  destruct (fetch_transcript_run E video_id proxy_config w)
    as [(w1 & t & Hacq & Hres) | (w1 & e & Hacq & Hres)];
    rewrite Hres in Hrun; injection Hrun as -> <-.
  - exists t. now split.
  - discriminate Hsucc.
Qed.

(** [fetch_transcript] always returns a record; it never raises. *)
Lemma fetch_transcript_returns (video_id : string) (proxy_config : pyval)
    (w : world) :
  exists w' r, fetch_transcript E video_id proxy_config w = (w', Ret r).
Proof.
  destruct (fetch_transcript_run E video_id proxy_config w)
    as [(w1 & t & _ & Hres) | (w1 & e & _ & Hres)]; eauto.
Qed.

(** An exception in the first half comes back as the failure record. *)
Lemma fetch_transcript_run_failure (video_id : string) (proxy_config : pyval)
    (w w' : world) (e : exn) :
  fetch_transcript_acquire E video_id proxy_config w = (w', Raise (Exception e)) ->
  fetch_transcript E video_id proxy_config w = (w', Ret (failure_record video_id e)).
Proof.
  intros Hacq.
  destruct (fetch_transcript_run E video_id proxy_config w)
    as [(w1 & t & Hacq' & _) | (w1 & e' & Hacq' & Hres)];
    rewrite Hacq in Hacq'.
  - discriminate Hacq'.
  - injection Hacq' as -> ->. exact Hres.
Qed.

(** C1. Whenever [fetch_transcript] returns the success variant,
    [total_duration] is [0] if [snippets] is empty, and otherwise the sum of
    the [start] and the [duration] of the last snippet. *)
Theorem fetch_transcript_total_duration (video_id : string)
    (proxy_config : pyval) (w w' : world) (r : pyval) :
  fetch_transcript E video_id proxy_config w = (w', Ret r) ->
  py_getitem r "success" = inr (PyBool true) ->
  exists snippets,
    py_getitem r "snippets" = inr (PyList snippets) /\
    match last snippets with
    | None => py_getitem r "total_duration" = inr (PyInt 0)
    | Some last_snippet =>
        exists s d,
          py_getitem last_snippet "start" = inr (PyFloat s) /\
          py_getitem last_snippet "duration" = inr (PyFloat d) /\
          py_getitem r "total_duration" = inr (PyFloat (PrimFloat.add s d))
    end.
Proof.
  intros Hrun Hsucc.
  destruct (fetch_transcript_success_inv _ _ _ _ _ Hrun Hsucc) as (t & _ & ->).
  exists (snippet_dict <$> fetched_iter t). split; [reflexivity |].
  rewrite fmap_last. cbn [py_getitem success_record dict_get String.eqb Ascii.eqb
                          Bool.eqb].
  unfold total_duration_of.
  destruct (last (fetched_iter t)) as [s |]; simpl; [| reflexivity].
  exists (start s), (duration s). repeat split.
Qed.

(** C2. Whenever [fetch_transcript] returns the success variant,
    [snippet_count] is the length of [snippets]. *)
Theorem fetch_transcript_snippet_count (video_id : string)
    (proxy_config : pyval) (w w' : world) (r : pyval) :
  fetch_transcript E video_id proxy_config w = (w', Ret r) ->
  py_getitem r "success" = inr (PyBool true) ->
  exists snippets,
    py_getitem r "snippets" = inr (PyList snippets) /\
    py_getitem r "snippet_count" = inr (PyInt (Z.of_nat (List.length snippets))).
Proof.
  intros Hrun Hsucc.
  destruct (fetch_transcript_success_inv _ _ _ _ _ Hrun Hsucc) as (t & _ & ->).
  exists (snippet_dict <$> fetched_iter t). split; [reflexivity |].
  rewrite length_fmap. reflexivity.
Qed.

(** C9. The record [fetch_transcript] returns, success or failure, carries
    the [video_id] argument unchanged. *)
Theorem fetch_transcript_video_id (video_id : string) (proxy_config : pyval)
    (w : world) :
  exists w' r,
    fetch_transcript E video_id proxy_config w = (w', Ret r) /\
    py_getitem r "video_id" = inr (PyStr video_id).
Proof.
  destruct (fetch_transcript_run E video_id proxy_config w)
    as [(w1 & t & _ & Hres) | (w1 & e & _ & Hres)];
    exists w1; eexists; (split; [exact Hres | reflexivity]).
Qed.

(** C10. If [proxy_config] is truthy and the membership test on it raises
    [e], then [fetch_transcript] returns the failure record for [e] and
    builds no client at all: the world is left as it was. *)
Theorem fetch_transcript_membership_raises (video_id : string)
    (proxy_config : pyval) (w : world) (e : exn) :
  py_truthy proxy_config = true ->
  py_contains "proxy_username" proxy_config = inl e ->
  fetch_transcript E video_id proxy_config w
  = (w, Ret (PyDict [("video_id", PyStr video_id);
                     ("error", PyStr (exn_str e));
                     ("success", PyBool false)])) /\
  new_calls w (fetch_transcript E video_id proxy_config w).1 = [].
Proof.
  intros Htruthy Hraises.
  assert (Hacq : fetch_transcript_acquire E video_id proxy_config w
                 = (w, Raise (Exception e))).
  { unfold fetch_transcript_acquire, proxy_requested.
    rewrite Htruthy, Hraises. reflexivity. }
  rewrite (fetch_transcript_run_failure _ _ _ _ _ Hacq).
  split; [reflexivity |].
  unfold new_calls. simpl. apply drop_all.
Qed.

End FetchTranscriptFacts.

(** ** The choice of client *)

Section ClientChoice.
Context (E : Env).

Lemma new_calls_app (w w' : world) (trace : list call) :
  calls w' = (calls w ++ trace)%list -> new_calls w w' = trace.
Proof. intros H. unfold new_calls. rewrite H. apply drop_app_length. Qed.

Lemma fetch_transcript_world (video_id : string) (proxy_config : pyval) (w : world) :
  (fetch_transcript E video_id proxy_config w).1
  = (fetch_transcript_acquire E video_id proxy_config w).1.
Proof.
  destruct (fetch_transcript_run E video_id proxy_config w)
    as [(w1 & t & Hacq & Hres) | (w1 & e & Hacq & Hres)];
    now rewrite Hacq, Hres.
Qed.

Lemma dict_has_get (items : list (string * pyval)) (key : string) :
  dict_has items key = true -> exists v, dict_get items key = Some v.
Proof.
  induction items as [| [k v] rest IH]; simpl; [discriminate |].
  destruct (String.eqb k key); simpl; eauto.
Qed.

(** On a mapping (and on [None]) line 29 computes the spec's test. *)
Lemma proxy_requested_mapping (proxy_config : pyval) (w : world) :
  proxy_config = PyNone \/ (exists items, proxy_config = PyDict items) ->
  proxy_requested proxy_config w = (w, Ret (spec_has_credentials proxy_config)).
Proof.
  intros [-> | [items ->]]; [reflexivity |].
  destruct items as [| kv rest]; [reflexivity |].
  unfold proxy_requested. cbn [py_truthy py_contains lift spec_has_credentials].
  unfold bind, ret.
  destruct (dict_has (kv :: rest) "proxy_username"); reflexivity.
Qed.

(** The default branch, step by step: the client is built, then the fetch
    is made; whichever raises first ends the acquisition. *)
Lemma acquire_default_run (video_id : string) (proxy_config : pyval) (w : world) :
  proxy_requested proxy_config w = (w, Ret false) ->
  fetch_transcript_acquire E video_id proxy_config w
  = match YouTubeTranscriptApi E None with
    | inl e =>
        (mkWorld (calls w ++ [CallYouTubeTranscriptApi false])
           (stdout w) (stderr w) (files w),
         Raise (Exception e))
    | inr ytt_api =>
        (mkWorld ((calls w ++ [CallYouTubeTranscriptApi false])
                  ++ [CallFetch false video_id])
           (stdout w) (stderr w) (files w),
         match fetch E ytt_api video_id with
         | inl e => Raise (Exception e)
         | inr t => Ret t
         end)
    end.
Proof.
  intros Hreq. unfold fetch_transcript_acquire.
  rewrite (bind_ret _ _ _ _ _ Hreq).
  unfold call_YouTubeTranscriptApi, call_fetch, bind, log_call, lift, ret, raise.
  cbn [bool_decide decide_rel].
  destruct (YouTubeTranscriptApi E None) as [e | ytt_api]; simpl; [reflexivity |].
  destruct (fetch E ytt_api video_id) as [e | t]; reflexivity.
Qed.

(** The calls of the default branch. *)
Lemma acquire_default_calls (video_id : string) (proxy_config : pyval) (w : world) :
  proxy_requested proxy_config w = (w, Ret false) ->
  exists trace,
    calls (fetch_transcript_acquire E video_id proxy_config w).1
    = (calls w ++ CallYouTubeTranscriptApi false :: trace)%list /\
    proxy_never_invoked trace = true.
Proof.
  intros Hreq. rewrite (acquire_default_run video_id proxy_config w Hreq).
  destruct (YouTubeTranscriptApi E None) as [e | ytt_api]; simpl.
  - exists []. now split.
  - exists [CallFetch false video_id].
    split; [now rewrite <- app_assoc | reflexivity].
Qed.

(** The calls of the proxy branch. *)
Lemma acquire_proxy_calls (video_id : string) (items : list (string * pyval))
    (w : world) :
  spec_has_credentials (PyDict items) = true ->
  exists u p trace,
    dict_get items "proxy_username" = Some u /\
    dict_get items "proxy_password" = Some p /\
    calls (fetch_transcript_acquire E video_id (PyDict items) w).1
    = (calls w ++ CallWebshareProxyConfig u p :: trace)%list /\
    forallb is_proxy_call trace = true.
Proof.
  intros Hcred.
  assert (Hreq := proxy_requested_mapping (PyDict items) w
                    (or_intror (ex_intro _ items eq_refl))).
  rewrite Hcred in Hreq.
  apply andb_prop in Hcred as [Hu Hp].
  destruct (dict_has_get _ _ Hu) as [u Hgu].
  destruct (dict_has_get _ _ Hp) as [p Hgp].
  exists u, p.
  unfold fetch_transcript_acquire.
  rewrite (bind_ret _ _ _ _ _ Hreq).
  unfold call_WebshareProxyConfig, call_YouTubeTranscriptApi, call_fetch,
    bind, log_call, lift, ret, raise, py_getitem.
  rewrite Hgu, Hgp. simpl.
  destruct (WebshareProxyConfig E u p) as [e | obj]; simpl.
  { exists []. rewrite ?app_nil_r. auto. }
  destruct (YouTubeTranscriptApi E (Some obj)) as [e | ytt_api]; simpl.
  { exists [CallYouTubeTranscriptApi true].
    repeat split; auto. now rewrite <- app_assoc. }
  destruct (fetch E ytt_api video_id) as [e | t]; simpl;
    exists [CallYouTubeTranscriptApi true; CallFetch true video_id];
    (repeat split; auto; now rewrite <- !app_assoc).
Qed.

End ClientChoice.

(** ** The entry point *)

Section MainFacts.
Context (E : Env).

Lemma only_calls_ret {A} (a : A) : only_calls (ret a).
Proof. intros w. now cbv. Qed.

Lemma only_calls_lift {A} (r : exn + A) : only_calls (lift r).
Proof. intros w. destruct r; now cbv. Qed.

Lemma only_calls_log_call (c : call) : only_calls (log_call c).
Proof. intros w. now cbv. Qed.

Lemma only_calls_bind {A B} (m : M A) (k : A -> M B) :
  only_calls m -> (forall a, only_calls (k a)) -> only_calls (bind m k).
Proof.
  intros Hm Hk w. unfold bind. specialize (Hm w).
  destruct (m w) as [w1 [a | r]]; simpl in *; [| exact Hm].
  destruct (Hk a w1) as (H1 & H2 & H3), Hm as (H4 & H5 & H6).
  repeat split; congruence.
Qed.

Lemma only_calls_if {A} (b : bool) (m1 m2 : M A) :
  only_calls m1 -> only_calls m2 -> only_calls (if b then m1 else m2).
Proof. now destruct b. Qed.

Lemma only_calls_acquire (video_id : string) (proxy_config : pyval) :
  only_calls (fetch_transcript_acquire E video_id proxy_config).
Proof.
  unfold fetch_transcript_acquire, proxy_requested, call_WebshareProxyConfig,
    call_YouTubeTranscriptApi, call_fetch.
  repeat first
    [ apply only_calls_bind; [ | intros ? ]
    | apply only_calls_if
    | apply only_calls_lift
    | apply only_calls_ret
    | apply only_calls_log_call ].
Qed.

Lemma only_calls_fetch_transcript (video_id : string) (proxy_config : pyval) :
  only_calls (fetch_transcript E video_id proxy_config).
Proof.
  intros w. rewrite fetch_transcript_world. apply only_calls_acquire.
Qed.

(** [main] once the arguments are in hand: fetch, write, report. *)
Lemma main_run (prog video_id output_file : string) (rest : list string)
    (proxy_config : pyval) (w w1 : world) (result : pyval) :
  proxy_argument E rest proxy_config ->
  fetch_transcript E video_id proxy_config w = (w1, Ret result) ->
  main E (prog :: video_id :: output_file :: rest) w
  = try_except_Exception
      (do open_w E output_file "utf-8" then
       do write_w E output_file (json_dump_text E false (Some 2%nat) result) then
       print_stdout E ("Transcript data written to " ++ output_file))
      (fun e =>
         do print_stderr ("Error writing to output file: " ++ exn_str e) then
         sys_exit 1) w1.
Proof.
  intros Harg Hfetch. unfold main, argv_get.
  destruct rest as [| arg rest']; simpl in Harg.
  - subst proxy_config. cbn -[fetch_transcript try_except_Exception].
    unfold bind at 1. cbn -[fetch_transcript try_except_Exception].
    unfold bind at 1. cbn -[fetch_transcript try_except_Exception].
    unfold bind at 1. cbn -[fetch_transcript try_except_Exception].
    unfold bind at 1. cbn -[fetch_transcript try_except_Exception].
    unfold bind at 1. now rewrite Hfetch.
  - cbn -[fetch_transcript try_except_Exception].
    unfold bind at 1. cbn -[fetch_transcript try_except_Exception].
    unfold bind at 1. cbn -[fetch_transcript try_except_Exception].
    unfold bind at 1. cbn -[fetch_transcript try_except_Exception].
    unfold bind at 1. unfold try_except_class, bind at 1.
    cbn -[fetch_transcript try_except_Exception].
    rewrite Harg. cbn -[fetch_transcript try_except_Exception].
    unfold bind at 1. now rewrite Hfetch.
Qed.

(** The exit has nothing to flush when the run added no line. *)
Lemma finalize_same (w : world) (r : world * Z) :
  stdout r.1 = stdout w -> finalize E w r = r.
Proof. intros H. unfold finalize. rewrite H, drop_all. reflexivity. Qed.

(** With a line added, the flush decides. *)
Lemma finalize_line (w : world) (r : world * Z) (line : string) :
  stdout r.1 = (stdout w ++ [line])%list ->
  finalize E w r
  = match exit_flush E with
    | None => r
    | Some e => ((print_stderr (unraisable_text E e) r.1).1, 120)
    end.
Proof. intros H. unfold finalize. rewrite H, drop_app_length. reflexivity. Qed.

(** With the arguments in hand the run is the fetch followed by the write
    and the exit. *)
Lemma run_script_with_arguments (prog video_id output_file : string)
    (rest : list string) (proxy_config : pyval) (w w1 : world) (result : pyval) :
  proxy_argument E rest proxy_config ->
  fetch_transcript E video_id proxy_config w = (w1, Ret result) ->
  stdout w1 = stdout w ->
  run_script E (prog :: video_id :: output_file :: rest) w
  = write_report E output_file (json_dump_text E false (Some 2%nat) result) w1.
Proof.
  intros Harg Hfetch Hout. unfold run_script, write_report.
  rewrite (main_run prog video_id output_file rest proxy_config w w1 result
             Harg Hfetch).
  unfold try_except_Exception, bind, open_w, write_w, print_stdout.
  destruct (open_for_writing E output_file "utf-8") as [e |].
  { cbn. now rewrite finalize_same. }
  cbn [set_file raise].
  destruct (write_and_close E output_file
              (json_dump_text E false (Some 2%nat) result)) as [[e reached] |].
  { cbn. rewrite finalize_same by exact Hout. now rewrite insert_insert_eq. }
  cbn [fst snd].
  destruct (stdout_print E ("Transcript data written to " ++ output_file))
    as [[e [|]] |]; cbn.
  - rewrite (finalize_line _ _ ("Transcript data written to " ++ output_file))
      by (cbn; now rewrite Hout).
    rewrite insert_insert_eq.
    destruct (exit_flush E); cbn; [| reflexivity].
    now rewrite <- app_assoc.
  - rewrite finalize_same by exact Hout. now rewrite insert_insert_eq.
  - rewrite (finalize_line _ _ ("Transcript data written to " ++ output_file))
      by (cbn; now rewrite Hout).
    rewrite insert_insert_eq.
    destruct (exit_flush E); reflexivity.
Qed.


(** C7. With fewer than two positional arguments the entry point prints
    the usage message to the error stream and ends with status 1; nothing
    is fetched and nothing is written. *)
Theorem main_usage (argv : list string) (w : world) :
  (List.length (tail argv) < 2)%nat ->
  run_script E argv w
  = (with_stderr w
       "Usage: python youtube_transcript_fetcher.py <video_id> <output_file> [proxy_config_json]",
     1).
Proof.
  intros Hlen. unfold run_script.
  destruct argv as [| a0 [| a1 [| a2 rest]]];
    try (rewrite finalize_same; reflexivity).
  simpl in Hlen. lia.
Qed.

(** C8. When a third argument is there and [json.loads] rejects it with a
    [JSONDecodeError], the entry point prints an error to the error stream
    and ends with status 1; [fetch_transcript] is not called and no file is
    written. *)
Theorem main_invalid_json (argv : list string) (arg : string) (e : exn)
    (w : world) :
  argv !! 3%nat = Some arg ->
  json_loads E arg = inl e ->
  exn_cls e = JSONDecodeError ->
  run_script E argv w = (with_stderr w "Invalid proxy configuration JSON", 1).
Proof.
  intros Harg Hloads Hcls.
  destruct argv as [| a0 [| a1 [| a2 [| a3 rest]]]]; try discriminate Harg.
  injection Harg as ->.
  assert (Hmain : end_of_main E (main E (a0 :: a1 :: a2 :: arg :: rest) w)
                  = (with_stderr w "Invalid proxy configuration JSON", 1)).
  { unfold end_of_main, main, argv_get, try_except_class.
    cbn -[fetch_transcript try_except_Exception].
    unfold bind at 1. cbn -[fetch_transcript try_except_Exception].
    unfold bind at 1. cbn -[fetch_transcript try_except_Exception].
    unfold bind at 1. cbn -[fetch_transcript try_except_Exception].
    unfold bind at 1. unfold bind at 1.
    cbn -[fetch_transcript try_except_Exception].
    rewrite Hloads. cbn -[fetch_transcript try_except_Exception].
    rewrite Hcls. reflexivity. }
  unfold run_script. rewrite Hmain. now apply finalize_same.
Qed.

End MainFacts.

(** ** Further properties of [fetch_transcript] *)

Section AcquireFacts.
Context (E : Env).

(** Line 29 touches nothing and ends in a verdict or an exception. *)
Lemma proxy_requested_cases (proxy_config : pyval) (w : world) :
  proxy_requested proxy_config w = (w, Ret true) \/
  proxy_requested proxy_config w = (w, Ret false) \/
  exists e,
    py_truthy proxy_config = true /\
    (py_contains "proxy_username" proxy_config = inl e \/
     py_contains "proxy_password" proxy_config = inl e) /\
    proxy_requested proxy_config w = (w, Raise (Exception e)).
Proof.
  unfold proxy_requested.
  destruct (py_truthy proxy_config); [| right; left; reflexivity].
  destruct (py_contains "proxy_username" proxy_config) as [e | [|]] eqn:Hu;
    cbn [lift]; unfold bind, ret, raise.
  - right; right. exists e. auto.
  - destruct (py_contains "proxy_password" proxy_config) as [e | [|]] eqn:Hp;
      cbn [lift]; unfold ret, raise; auto.
    right; right. exists e. auto.
  - right; left. reflexivity.
Qed.

(** The proxy branch, step by step. *)
Lemma acquire_proxy_run (video_id : string) (proxy_config : pyval) (w : world) :
  proxy_requested proxy_config w = (w, Ret true) ->
  fetch_transcript_acquire E video_id proxy_config w
  = match py_getitem proxy_config "proxy_username" with
    | inl e => (w, Raise (Exception e))
    | inr u =>
        match py_getitem proxy_config "proxy_password" with
        | inl e => (w, Raise (Exception e))
        | inr p =>
            match WebshareProxyConfig E u p with
            | inl e => (with_calls w [CallWebshareProxyConfig u p],
                        Raise (Exception e))
            | inr obj =>
                match YouTubeTranscriptApi E (Some obj) with
                | inl e =>
                    (with_calls w [CallWebshareProxyConfig u p;
                                   CallYouTubeTranscriptApi true],
                     Raise (Exception e))
                | inr ytt_api =>
                    (with_calls w [CallWebshareProxyConfig u p;
                                   CallYouTubeTranscriptApi true;
                                   CallFetch true video_id],
                     match fetch E ytt_api video_id with
                     | inl e => Raise (Exception e)
                     | inr t => Ret t
                     end)
                end
            end
        end
    end.
Proof.
  intros Hreq. unfold fetch_transcript_acquire.
  rewrite (bind_ret _ _ _ _ _ Hreq).
  unfold call_WebshareProxyConfig, call_YouTubeTranscriptApi, call_fetch,
    bind, log_call, lift, ret, raise, with_calls.
  destruct (py_getitem proxy_config "proxy_username") as [e | u]; [reflexivity |].
  destruct (py_getitem proxy_config "proxy_password") as [e | p]; [reflexivity |].
  simpl.
  destruct (WebshareProxyConfig E u p) as [e | obj]; simpl; [reflexivity |].
  destruct (YouTubeTranscriptApi E (Some obj)) as [e | ytt_api]; simpl.
  { now rewrite <- app_assoc. }
  destruct (fetch E ytt_api video_id) as [e | t]; simpl;
    now rewrite <- !app_assoc.
Qed.

(** Every run of lines 29-46 appends one of six call sequences. *)
Lemma acquire_shape_run (video_id : string) (proxy_config : pyval) (w : world) :
  exists trace o,
    fetch_transcript_acquire E video_id proxy_config w = (with_calls w trace, o) /\
    acquire_shape video_id trace (is_ret o).
Proof.
  destruct (proxy_requested_cases proxy_config w)
    as [Hreq | [Hreq | (e & _ & _ & Hreq)]].
  - rewrite (acquire_proxy_run video_id proxy_config w Hreq).
    destruct (py_getitem proxy_config "proxy_username") as [e | u].
    { exists [], (Raise (Exception e)). unfold with_calls.
      rewrite app_nil_r. destruct w. split; [reflexivity | constructor]. }
    destruct (py_getitem proxy_config "proxy_password") as [e | p].
    { exists [], (Raise (Exception e)). unfold with_calls.
      rewrite app_nil_r. destruct w. split; [reflexivity | constructor]. }
    destruct (WebshareProxyConfig E u p) as [e | obj].
    { eexists _, _. split; [reflexivity | constructor]. }
    destruct (YouTubeTranscriptApi E (Some obj)) as [e | ytt_api].
    { eexists _, _. split; [reflexivity | constructor]. }
    eexists _, _. split; [reflexivity | constructor].
  - rewrite (acquire_default_run E video_id proxy_config w Hreq).
    destruct (YouTubeTranscriptApi E None) as [e | ytt_api].
    { exists [CallYouTubeTranscriptApi false], (Raise (Exception e)).
      split; [reflexivity | constructor]. }
    eexists [CallYouTubeTranscriptApi false; CallFetch false video_id], _.
    split; [unfold with_calls; now rewrite <- app_assoc | constructor].
  - exists [], (Raise (Exception e)). split; [| constructor].
    unfold fetch_transcript_acquire. rewrite (bind_raise _ _ _ _ _ Hreq).
    unfold with_calls. rewrite app_nil_r. now destruct w.
Qed.

End AcquireFacts.

(** ** The library's answers and the record returned *)

Section LibraryFacts.
Context (E : Env).

Lemma default_path_requested (proxy_config : pyval) (w : world) :
  takes_default_path proxy_config ->
  proxy_requested proxy_config w = (w, Ret false).
Proof.
  intros Hcase. unfold proxy_requested.
  destruct (py_truthy proxy_config) eqn:Htruthy; [| reflexivity].
  destruct Hcase as [Hf | [Hu | Hp]]; [congruence | |].
  - now rewrite Hu.
  - destruct (py_contains "proxy_username" proxy_config) as [e | [|]] eqn:Hu.
    + destruct proxy_config; simpl in Hu, Hp; discriminate.
    + cbn [lift]. unfold bind, ret. now rewrite Hp.
    + reflexivity.
Qed.

Lemma proxy_path_requested (proxy_config u p : pyval) (w : world) :
  takes_proxy_path proxy_config u p ->
  proxy_requested proxy_config w = (w, Ret true).
Proof.
  intros (Htruthy & Hu & Hp & _). unfold proxy_requested.
  now rewrite Htruthy, Hu, Hp.
Qed.

(** An exception of the library ends lines 29-46 with that exception. *)
Lemma library_raises_acquire (video_id : string) (proxy_config : pyval)
    (e : exn) (w : world) :
  library_raises E video_id proxy_config e ->
  exists w',
    fetch_transcript_acquire E video_id proxy_config w = (w', Raise (Exception e)).
Proof.
  intros [Hpath Hapi | ytt_api Hpath Hapi Hfetch
         | u p Hpath Hcfg | u p obj Hpath Hcfg Hapi
         | u p obj ytt_api Hpath Hcfg Hapi Hfetch].
  - rewrite (acquire_default_run E video_id proxy_config w
               (default_path_requested _ w Hpath)), Hapi. eauto.
  - rewrite (acquire_default_run E video_id proxy_config w
               (default_path_requested _ w Hpath)), Hapi, Hfetch. eauto.
  - rewrite (acquire_proxy_run E video_id proxy_config w
               (proxy_path_requested _ u p w Hpath)).
    destruct Hpath as (_ & _ & _ & -> & ->). rewrite Hcfg. eauto.
  - rewrite (acquire_proxy_run E video_id proxy_config w
               (proxy_path_requested _ u p w Hpath)).
    destruct Hpath as (_ & _ & _ & -> & ->). rewrite Hcfg, Hapi. eauto.
  - rewrite (acquire_proxy_run E video_id proxy_config w
               (proxy_path_requested _ u p w Hpath)).
    destruct Hpath as (_ & _ & _ & -> & ->). rewrite Hcfg, Hapi, Hfetch. eauto.
Qed.

(** A transcript handed back by the library's [fetch] is what lines 29-46
    return. *)
Lemma library_returns_acquire (video_id : string) (proxy_config : pyval)
    (t : fetched) (w : world) :
  library_returns E video_id proxy_config t ->
  exists w', fetch_transcript_acquire E video_id proxy_config w = (w', Ret t).
Proof.
  intros [ytt_api Hpath Hapi Hfetch | u p obj ytt_api Hpath Hcfg Hapi Hfetch].
  - rewrite (acquire_default_run E video_id proxy_config w
               (default_path_requested _ w Hpath)), Hapi, Hfetch. eauto.
  - rewrite (acquire_proxy_run E video_id proxy_config w
               (proxy_path_requested _ u p w Hpath)).
    destruct Hpath as (_ & _ & _ & -> & ->). rewrite Hcfg, Hapi, Hfetch. eauto.
Qed.

(** C3. If a call into the library raises an exception [e], be it
    [WebshareProxyConfig], [YouTubeTranscriptApi] or [fetch], on either
    path, then [fetch_transcript] does not raise: it returns the failure
    record [{video_id, error: str(e), success: False}]. *)
Theorem fetch_transcript_catches (video_id : string) (proxy_config : pyval)
    (w : world) (e : exn) :
  library_raises E video_id proxy_config e ->
  exists w',
    fetch_transcript E video_id proxy_config w
    = (w', Ret (PyDict [("video_id", PyStr video_id);
                        ("error", PyStr (exn_str e));
                        ("success", PyBool false)])).
Proof.
  intros Hraises.
  destruct (library_raises_acquire video_id proxy_config e w Hraises)
    as (w' & Hacq).
  exists w'. exact (fetch_transcript_run_failure E _ _ _ _ _ Hacq).
Qed.

(** C5. Whatever the library's [fetch] returns, the [snippets] of the
    success record follow it: for a sequence of segments, same length and
    same order, the i-th record holding the [text], [start] and
    [duration] of the i-th segment (so none for an empty sequence); for
    no transcript at all, the empty list. *)
Theorem fetch_transcript_snippets (video_id : string) (proxy_config : pyval)
    (w : world) (t : fetched) :
  library_returns E video_id proxy_config t ->
  exists w' r snippets,
    fetch_transcript E video_id proxy_config w = (w', Ret r) /\
    py_getitem r "success" = inr (PyBool true) /\
    py_getitem r "snippets" = inr (PyList snippets) /\
    match t with
    | NoTranscript => snippets = []
    | FetchedTranscript segments =>
        List.length snippets = List.length segments /\
        forall (i : nat) (segment : FetchedTranscriptSnippet),
          segments !! i = Some segment ->
          snippets !! i = Some (PyDict [("text", PyStr (text segment));
                                        ("start", PyFloat (start segment));
                                        ("duration", PyFloat (duration segment))])
    end.
Proof.
  intros Hreturns.
  destruct (library_returns_acquire video_id proxy_config t w Hreturns)
    as (w' & Hacq).
  destruct (fetch_transcript_run E video_id proxy_config w)
    as [(w1 & t' & Hacq' & Hres) | (w1 & e & Hacq' & _)];
    rewrite Hacq in Hacq'; [| discriminate Hacq'].
  injection Hacq' as <- <-.
  exists w', (success_record video_id (fetched_iter t)),
         (snippet_dict <$> fetched_iter t).
  split; [exact Hres |].
  split; [reflexivity |].
  split; [reflexivity |].
  destruct t as [| segments]; [reflexivity |]. simpl.
  split; [apply length_fmap |].
  intros i segment Hi. rewrite list_lookup_fmap, Hi. reflexivity.
Qed.

Lemma new_calls_with_calls (w : world) (trace : list call) :
  new_calls w (with_calls w trace) = trace.
Proof. now apply new_calls_app. Qed.

(** C4, as amended. For a [proxy_config] that is [None] or a mapping:
    the proxy client is constructed and used exactly when the mapping
    holds both [proxy_username] and [proxy_password] and the library
    builds the proxy configuration and the proxy client from them; with
    both keys the first call builds the proxy configuration and the
    default client is never built; in every other case the default client
    is built, the fetch goes through it, and no proxy call is made. *)
Theorem fetch_transcript_proxy_choice (video_id : string)
    (proxy_config : pyval) (w : world) :
  proxy_config = PyNone \/ (exists items, proxy_config = PyDict items) ->
  let trace := new_calls w (fetch_transcript E video_id proxy_config w).1 in
  (uses_proxy_client video_id trace = true <->
   spec_has_credentials proxy_config = true /\ proxy_client_built E proxy_config) /\
  (spec_has_credentials proxy_config = true ->
   (exists u p rest, trace = CallWebshareProxyConfig u p :: rest) /\
   forallb is_proxy_call trace = true) /\
  (spec_has_credentials proxy_config = false ->
   uses_default_client trace = true /\ proxy_never_invoked trace = true /\
   forall ytt_api,
     YouTubeTranscriptApi E None = inr ytt_api ->
     trace = [CallYouTubeTranscriptApi false; CallFetch false video_id]).
Proof.
  intros Hshape. cbv zeta. rewrite fetch_transcript_world.
  pose proof (proxy_requested_mapping proxy_config w Hshape) as Hreq.
  destruct (spec_has_credentials proxy_config) eqn:Hcred.
  - destruct Hshape as [-> | [items ->]]; [discriminate Hcred |].
    apply andb_prop in Hcred as [Hu Hp].
    destruct (dict_has_get _ _ Hu) as [u Hgu].
    destruct (dict_has_get _ _ Hp) as [p Hgp].
    rewrite (acquire_proxy_run E video_id (PyDict items) w Hreq).
    unfold proxy_client_built, py_getitem. rewrite Hgu, Hgp.
    destruct (WebshareProxyConfig E u p) as [e | obj] eqn:Hcfg;
      [| destruct (YouTubeTranscriptApi E (Some obj)) as [e | ytt_api] eqn:Hapi];
      cbn [fst]; rewrite new_calls_with_calls.
    + split; [| split; [intros _; split; [eauto | reflexivity] | discriminate]].
      split; [discriminate |].
      intros (_ & u' & p' & obj & c & Hu' & Hp' & Hcfg' & _).
      injection Hu' as <-. injection Hp' as <-. congruence.
    + split; [| split; [intros _; split; [eauto | reflexivity] | discriminate]].
      split; [discriminate |].
      intros (_ & u' & p' & obj' & c & Hu' & Hp' & Hcfg' & Hapi').
      injection Hu' as <-. injection Hp' as <-.
      rewrite Hcfg in Hcfg'. injection Hcfg' as <-. congruence.
    + split; [| split; [intros _; split; [eauto | reflexivity] | discriminate]].
      split.
      * intros _. split; [reflexivity |]. exists u, p, obj, ytt_api. auto.
      * intros _. simpl. apply String.eqb_refl.
  - rewrite (acquire_default_run E video_id proxy_config w Hreq).
    assert (Hno : uses_proxy_client video_id
                    [CallYouTubeTranscriptApi false] = true <->
                  false = true /\ proxy_client_built E proxy_config)
      by (split; [discriminate | intros [? _]; discriminate]).
    destruct (YouTubeTranscriptApi E None) as [e | ytt_api]; cbn [fst].
    + change (mkWorld (calls w ++ [CallYouTubeTranscriptApi false])
                (stdout w) (stderr w) (files w))
        with (with_calls w [CallYouTubeTranscriptApi false]).
      rewrite new_calls_with_calls.
      split; [exact Hno |]. split; [discriminate |].
      intros _. repeat split. intros ytt_api Habs. discriminate Habs.
    + rewrite (new_calls_app w _ [CallYouTubeTranscriptApi false;
                                  CallFetch false video_id])
        by (simpl; now rewrite <- app_assoc).
      split; [split; [discriminate | intros [? _]; discriminate] |].
      split; [discriminate |].
      intros _. repeat split.
Qed.

End LibraryFacts.

Section FetchTranscriptMore.
Context (E : Env).

Lemma fetch_transcript_shape_world (video_id : string) (proxy_config : pyval)
    (w : world) :
  exists trace o,
    fetch_transcript_acquire E video_id proxy_config w = (with_calls w trace, o) /\
    (fetch_transcript E video_id proxy_config w).1 = with_calls w trace /\
    acquire_shape video_id trace (is_ret o).
Proof.
  destruct (acquire_shape_run E video_id proxy_config w)
    as (trace & o & Hacq & Hshape).
  exists trace, o. split; [exact Hacq |]. split; [| exact Hshape].
  rewrite fetch_transcript_world. now rewrite Hacq.
Qed.

(** X1. One call of [fetch_transcript] builds at most one client and
    fetches at most once, never retrying; any fetch it makes is for the
    [video_id] it was given.  Apart from the call log the world is left
    as it was. *)
Theorem fetch_transcript_call_budget (video_id : string) (proxy_config : pyval)
    (w : world) :
  exists trace,
    (fetch_transcript E video_id proxy_config w).1 = with_calls w trace /\
    (List.length (List.filter is_client_call trace) <= 1)%nat /\
    (List.length (List.filter is_fetch_call trace) <= 1)%nat /\
    (forall b v, In (CallFetch b v) trace -> v = video_id).
Proof.
  destruct (fetch_transcript_shape_world video_id proxy_config w)
    as (trace & o & _ & Hworld & Hshape).
  exists trace. split; [exact Hworld |].
  destruct Hshape; simpl; repeat split; try lia;
    intros b v Hin; repeat (destruct Hin as [Hin | Hin]; try discriminate);
    try contradiction; now injection Hin.
Qed.

(** X2. [fetch_transcript] prints nothing and writes no file, and it only
    ever appends to the log of library calls. *)
Theorem fetch_transcript_effects (video_id : string) (proxy_config : pyval)
    (w w' : world) (o : outcome pyval) :
  fetch_transcript E video_id proxy_config w = (w', o) ->
  stdout w' = stdout w /\ stderr w' = stderr w /\ files w' = files w /\
  calls w `prefix_of` calls w'.
Proof.
  intros Hrun.
  destruct (fetch_transcript_shape_world video_id proxy_config w)
    as (trace & o' & _ & Hworld & _).
  rewrite Hrun in Hworld. simpl in Hworld. subst w'.
  repeat split. now exists trace.
Qed.

(** X3. A success record is returned only after a fetch for [video_id] was
    made, and that fetch is the last library call. *)
Theorem fetch_transcript_success_after_fetch (video_id : string)
    (proxy_config : pyval) (w w' : world) (r : pyval) :
  fetch_transcript E video_id proxy_config w = (w', Ret r) ->
  py_getitem r "success" = inr (PyBool true) ->
  exists with_proxy, last (calls w') = Some (CallFetch with_proxy video_id).
Proof.
  intros Hrun Hsucc.
  destruct (fetch_transcript_success_inv E _ _ _ _ _ Hrun Hsucc) as (t & Hacq & _).
  destruct (fetch_transcript_shape_world video_id proxy_config w)
    as (trace & o & Hacq' & _ & Hshape).
  rewrite Hacq in Hacq'. injection Hacq' as -> <-.
  simpl in Hshape. unfold with_calls; simpl.
  inversion Hshape; subst.
  - exists false. now rewrite last_app.
  - exists true. now rewrite last_app.
Qed.

(** X4. Whenever [proxy_config] is falsy, or either membership test on it
    answers [False] (a mapping without the key, but also a string or a list
    without the name), the default client is built and no proxy call is
    made. *)
Theorem fetch_transcript_default_path (video_id : string) (proxy_config : pyval)
    (w : world) :
  py_truthy proxy_config = false \/
  py_contains "proxy_username" proxy_config = inr false \/
  py_contains "proxy_password" proxy_config = inr false ->
  let trace := new_calls w (fetch_transcript E video_id proxy_config w).1 in
  uses_default_client trace = true /\ proxy_never_invoked trace = true.
Proof.
  intros Hcase.
  assert (Hreq : proxy_requested proxy_config w = (w, Ret false)).
  { unfold proxy_requested.
    destruct (py_truthy proxy_config); [| reflexivity].
    destruct Hcase as [Hf | [Hu | Hp]]; [discriminate Hf | |].
    - now rewrite Hu.
    - destruct (py_contains "proxy_username" proxy_config) as [e | [|]] eqn:Hu.
      + destruct proxy_config; simpl in Hu, Hp; discriminate.
      + cbn [lift]. unfold bind, ret. now rewrite Hp.
      + reflexivity. }
  destruct (acquire_default_calls E video_id proxy_config w Hreq)
    as (trace & Hcalls & Hnone).
  cbv zeta. rewrite fetch_transcript_world, (new_calls_app _ _ _ Hcalls).
  split; [reflexivity | exact Hnone].
Qed.

(** X5. A string or a list in which both names are found passes line 29
    like a mapping would; the indexing on lines 32-33 then raises
    [TypeError], so the failure record is returned and no library call is
    made at all. *)
Theorem fetch_transcript_names_in_non_mapping (video_id : string)
    (proxy_config : pyval) (w : world) :
  (exists s, proxy_config = PyStr s) \/ (exists l, proxy_config = PyList l) ->
  py_contains "proxy_username" proxy_config = inr true ->
  py_contains "proxy_password" proxy_config = inr true ->
  exists e,
    exn_cls e = TypeError /\
    fetch_transcript E video_id proxy_config w
    = (w, Ret (PyDict [("video_id", PyStr video_id);
                       ("error", PyStr (exn_str e));
                       ("success", PyBool false)])).
Proof.
  intros Hkind Hu Hp.
  assert (Htruthy : py_truthy proxy_config = true).
  { destruct Hkind as [[s ->] | [l ->]]; simpl in *.
    - destruct s; [discriminate Hu | reflexivity].
    - destruct l; [discriminate Hu | reflexivity]. }
  assert (Hreq : proxy_requested proxy_config w = (w, Ret true)).
  { unfold proxy_requested. now rewrite Htruthy, Hu, Hp. }
  assert (Hget : exists e, exn_cls e = TypeError /\
                 py_getitem proxy_config "proxy_username" = inl e).
  { destruct Hkind as [[s ->] | [l ->]];
      eexists; (split; [| reflexivity]); reflexivity. }
  destruct Hget as (e & Hcls & Hget). exists e. split; [exact Hcls |].
  apply fetch_transcript_run_failure.
  rewrite (acquire_proxy_run E video_id proxy_config w Hreq). now rewrite Hget.
Qed.

(** X6. When the mapping holds both keys, the first library call builds the
    proxy configuration from exactly the two values found under them,
    whatever their type. *)
Theorem fetch_transcript_forwards_credentials (video_id : string)
    (items : list (string * pyval)) (w : world) :
  spec_has_credentials (PyDict items) = true ->
  exists u p rest,
    py_getitem (PyDict items) "proxy_username" = inr u /\
    py_getitem (PyDict items) "proxy_password" = inr p /\
    new_calls w (fetch_transcript E video_id (PyDict items) w).1
    = CallWebshareProxyConfig u p :: rest.
Proof.
  intros Hcred.
  destruct (acquire_proxy_calls E video_id items w Hcred)
    as (u & p & rest & Hu & Hp & Hcalls & _).
  exists u, p, rest. simpl. rewrite Hu, Hp.
  repeat split. rewrite fetch_transcript_world. now apply new_calls_app.
Qed.

(** X7. The two variants of the returned record exclude each other: a
    success record has no [error] key, a failure record has a string under
    [error] and none of [snippets], [total_duration], [snippet_count];
    reading a missing key raises [KeyError]. *)
Theorem fetch_transcript_variants (video_id : string) (proxy_config : pyval)
    (w w' : world) (r : pyval) :
  fetch_transcript E video_id proxy_config w = (w', Ret r) ->
  (py_getitem r "success" = inr (PyBool true) /\
   (exists e, py_getitem r "error" = inl e /\ exn_cls e = KeyError)) \/
  (py_getitem r "success" = inr (PyBool false) /\
   (exists message, py_getitem r "error" = inr (PyStr message)) /\
   (forall key, key = "snippets" \/ key = "total_duration" \/ key = "snippet_count" ->
      exists e, py_getitem r key = inl e /\ exn_cls e = KeyError)).
Proof.
  intros Hrun.
  destruct (fetch_transcript_run E video_id proxy_config w)
    as [(w1 & t & _ & Hres) | (w1 & e & _ & Hres)];
    rewrite Hres in Hrun; injection Hrun as _ <-.
  - left. split; [reflexivity |].
    eexists. (split; [reflexivity |]). reflexivity.
  - right. split; [reflexivity |]. split; [eexists; reflexivity |].
    intros key [-> | [-> | ->]]; eexists; (split; [reflexivity |]); reflexivity.
Qed.

(** X8. The [snippets] field loses nothing: two success records with the
    same [snippets] come from the same sequence of segments handed back by
    the library's [fetch]. *)
Theorem fetch_transcript_snippets_injective (video_id1 video_id2 : string)
    (proxy_config1 proxy_config2 : pyval)
    (segments1 segments2 : list FetchedTranscriptSnippet)
    (w1 w2 w1' w2' : world) (r1 r2 : pyval) :
  library_returns E video_id1 proxy_config1 (FetchedTranscript segments1) ->
  library_returns E video_id2 proxy_config2 (FetchedTranscript segments2) ->
  fetch_transcript E video_id1 proxy_config1 w1 = (w1', Ret r1) ->
  fetch_transcript E video_id2 proxy_config2 w2 = (w2', Ret r2) ->
  py_getitem r1 "snippets" = py_getitem r2 "snippets" ->
  segments1 = segments2.
Proof.
  intros Hret1 Hret2 Hrun1 Hrun2 Hsame.
  assert (Hrec : forall video_id proxy_config segments w w' r,
             library_returns E video_id proxy_config (FetchedTranscript segments) ->
             fetch_transcript E video_id proxy_config w = (w', Ret r) ->
             py_getitem r "snippets" = inr (PyList (snippet_dict <$> segments))).
  { intros video_id proxy_config segments w w' r Hret Hrun.
    destruct (library_returns_acquire E video_id proxy_config _ w Hret)
      as (w0 & Hacq).
    destruct (fetch_transcript_run E video_id proxy_config w)
      as [(wa & t & Hacq' & Hres) | (wa & e & Hacq' & _)];
      rewrite Hacq in Hacq'; [| discriminate Hacq'].
    injection Hacq' as <- <-. rewrite Hres in Hrun.
    injection Hrun as _ <-. reflexivity. }
  rewrite (Hrec _ _ _ _ _ _ Hret1 Hrun1), (Hrec _ _ _ _ _ _ Hret2 Hrun2) in Hsame.
  injection Hsame as Hsame. clear - Hsame.
  revert segments2 Hsame.
  induction segments1 as [| [x1 s1 d1] l IH]; intros [| [x2 s2 d2] l'] Heq;
    try discriminate; [reflexivity |].
  rewrite !fmap_cons in Heq. injection Heq as -> -> -> Heq.
  f_equal. now apply IH.
Qed.

End FetchTranscriptMore.

(** ** Further properties of the entry point *)

Section MainMore.
Context (E : Env).

Lemma run_script_usage (argv : list string) (w : world) :
  (List.length argv < 3)%nat ->
  run_script E argv w = (with_stderr w usage_message, 1).
Proof.
  intros Hlen. unfold run_script.
  destruct argv as [| a0 [| a1 [| a2 rest]]];
    try (rewrite finalize_same; reflexivity).
  simpl in Hlen. lia.
Qed.

(** [json.loads] raising: the handler of line 99 takes a
    [JSONDecodeError] and lets everything else through. *)
Lemma run_script_loads_raises (prog video_id output_file arg : string)
    (rest : list string) (e : exn) (w : world) :
  json_loads E arg = inl e ->
  run_script E (prog :: video_id :: output_file :: arg :: rest) w
  = (with_stderr w (if is_JSONDecodeError (exn_cls e)
                    then "Invalid proxy configuration JSON"
                    else excepthook_text E e), 1).
Proof.
  intros Hloads.
  assert (Hmain :
            end_of_main E (main E (prog :: video_id :: output_file :: arg :: rest) w)
            = (with_stderr w (if is_JSONDecodeError (exn_cls e)
                              then "Invalid proxy configuration JSON"
                              else excepthook_text E e), 1)).
  { unfold end_of_main, main, argv_get, try_except_class.
    cbn -[fetch_transcript try_except_Exception].
    unfold bind at 1. cbn -[fetch_transcript try_except_Exception].
    unfold bind at 1. cbn -[fetch_transcript try_except_Exception].
    unfold bind at 1. cbn -[fetch_transcript try_except_Exception].
    unfold bind at 1. unfold bind at 1.
    cbn -[fetch_transcript try_except_Exception].
    rewrite Hloads. cbn -[fetch_transcript try_except_Exception].
    destruct (is_JSONDecodeError (exn_cls e)); reflexivity. }
  unfold run_script. rewrite Hmain. now apply finalize_same.
Qed.

(** The three ways a run can go. *)
Lemma run_script_cases (argv : list string) (w : world) :
  ((List.length argv < 3)%nat /\
   run_script E argv w = (with_stderr w usage_message, 1)) \/
  (exists prog video_id output_file arg rest e,
     argv = prog :: video_id :: output_file :: arg :: rest /\
     json_loads E arg = inl e /\
     run_script E argv w
     = (with_stderr w (if is_JSONDecodeError (exn_cls e)
                       then "Invalid proxy configuration JSON"
                       else excepthook_text E e), 1)) \/
  (exists prog video_id output_file rest proxy_config w1 result,
     argv = prog :: video_id :: output_file :: rest /\
     proxy_argument E rest proxy_config /\
     fetch_transcript E video_id proxy_config w = (w1, Ret result) /\
     stdout w1 = stdout w /\ stderr w1 = stderr w /\ files w1 = files w /\
     run_script E argv w
     = write_report E output_file (json_dump_text E false (Some 2%nat) result) w1).
Proof.
  destruct argv as [| prog [| video_id [| output_file rest]]];
    try (left; split; [simpl; lia | apply run_script_usage; simpl; lia]).
  right.
  assert (Hgo : forall proxy_config,
             proxy_argument E rest proxy_config ->
             exists w1 result,
               fetch_transcript E video_id proxy_config w = (w1, Ret result) /\
               stdout w1 = stdout w /\ stderr w1 = stderr w /\
               files w1 = files w /\
               run_script E (prog :: video_id :: output_file :: rest) w
               = write_report E output_file
                   (json_dump_text E false (Some 2%nat) result) w1).
  { intros proxy_config Harg.
    destruct (fetch_transcript_returns E video_id proxy_config w)
      as (w1 & result & Hfetch).
    pose proof (only_calls_fetch_transcript E video_id proxy_config w) as Hsame.
    rewrite Hfetch in Hsame. simpl in Hsame.
    destruct Hsame as (Hout & Herr & Hfiles).
    exists w1, result. repeat (split; [assumption |]).
    now apply (run_script_with_arguments E _ _ _ _ proxy_config). }
  destruct rest as [| arg rest'].
  - right. destruct (Hgo PyNone eq_refl) as (w1 & result & H).
    exists prog, video_id, output_file, [], PyNone, w1, result.
    split; [reflexivity |]. split; [reflexivity | exact H].
  - destruct (json_loads E arg) as [e | proxy_config] eqn:Hloads.
    + left. exists prog, video_id, output_file, arg, rest', e.
      split; [reflexivity |]. split; [exact Hloads |].
      now apply run_script_loads_raises.
    + right. destruct (Hgo proxy_config Hloads) as (w1 & result & H).
      exists prog, video_id, output_file, (arg :: rest'), proxy_config, w1, result.
      split; [reflexivity |]. split; [exact Hloads | exact H].
Qed.

(** X9. An exception of [json.loads] that is not a [JSONDecodeError] is
    not handled: the run ends with the interpreter's report on the error
    stream and status 1, before any fetch and without writing a file. *)
Theorem main_other_loads_exception (argv : list string) (arg : string)
    (e : exn) (w : world) :
  argv !! 3%nat = Some arg ->
  json_loads E arg = inl e ->
  exn_cls e <> JSONDecodeError ->
  run_script E argv w = (with_stderr w (excepthook_text E e), 1).
Proof.
  intros Harg Hloads Hcls.
  destruct argv as [| a0 [| a1 [| a2 [| a3 rest]]]]; try discriminate Harg.
  injection Harg as ->.
  rewrite (run_script_loads_raises _ _ _ _ _ e w Hloads).
  destruct (exn_cls e); try reflexivity. contradiction.
Qed.

(** X10. Only the first three positional arguments count: the program
    name and anything after the proxy argument change nothing. *)
Theorem main_ignores_extra_arguments (prog prog' video_id output_file arg : string)
    (extra : list string) (w : world) :
  run_script E (prog :: video_id :: output_file :: arg :: extra) w
  = run_script E [prog'; video_id; output_file; arg] w.
Proof.
  destruct (json_loads E arg) as [e | proxy_config] eqn:Hloads.
  - now rewrite !(run_script_loads_raises _ _ _ _ _ e w Hloads).
  - destruct (fetch_transcript_returns E video_id proxy_config w)
      as (w1 & result & Hfetch).
    pose proof (only_calls_fetch_transcript E video_id proxy_config w) as Hsame.
    rewrite Hfetch in Hsame. simpl in Hsame. destruct Hsame as (Hout & _).
    rewrite (run_script_with_arguments E prog video_id output_file (arg :: extra)
               proxy_config w w1 result Hloads Hfetch Hout).
    now rewrite (run_script_with_arguments E prog' video_id output_file [arg]
                   proxy_config w w1 result Hloads Hfetch Hout).
Qed.



(** X13. No file but the one the second positional argument names is ever
    created or changed, whatever path spells it. *)
Theorem main_writes_only_output_file (argv : list string) (file : string)
    (w : world) :
  (forall output_file,
     argv !! 2%nat = Some output_file -> resolve_path E output_file <> file) ->
  files (run_script E argv w).1 !! file = files w !! file.
Proof.
  intros Hother.
  destruct (run_script_cases argv w)
    as [[_ Hrun] | [(prog & video_id & output_file & arg & rest & e & _ & _ & Hrun)
       | (prog & video_id & output_file & rest & proxy_config & w1 & result
          & Hargv & _ & _ & _ & _ & Hfiles & Hrun)]];
    rewrite Hrun; try reflexivity.
  subst argv.
  assert (Hne : resolve_path E output_file <> file) by now apply Hother.
  unfold write_report.
  destruct (open_for_writing E output_file "utf-8") as [e |];
    [simpl; now rewrite Hfiles |].
  destruct (write_and_close E output_file _) as [[e reached] |];
    [| destruct (stdout_print E _) as [[e [|]] |];
       try destruct (exit_flush E) as [e' |]];
    simpl; rewrite lookup_insert_ne by exact Hne; now rewrite Hfiles.
Qed.

(** X14. A failed fetch is not fatal to the run: when a call into the
    library raises [e] and the file can be written and the confirmation
    printed, the failure record for [e] is what the output file receives,
    the confirmation goes to the output stream and the status is 0. *)
Theorem main_fetch_failure_not_fatal (prog video_id output_file : string)
    (rest : list string) (proxy_config : pyval) (w : world) (e : exn) :
  let content :=
    json_dump_text E false (Some 2%nat)
      (PyDict [("video_id", PyStr video_id);
               ("error", PyStr (exn_str e));
               ("success", PyBool false)]) in
  proxy_argument E rest proxy_config ->
  library_raises E video_id proxy_config e ->
  open_for_writing E output_file "utf-8" = None ->
  write_and_close E output_file content = None ->
  stdout_print E ("Transcript data written to " ++ output_file) = None ->
  exit_flush E = None ->
  exists w1,
    calls w `prefix_of` calls w1 /\
    run_script E (prog :: video_id :: output_file :: rest) w
    = (mkWorld (calls w1)
         (stdout w ++ ["Transcript data written to " ++ output_file])
         (stderr w)
         (<[resolve_path E output_file := content]> (files w)), 0).
Proof.
  intros content Harg Hraises Hopen Hwrite Hprint Hflush.
  destruct (library_raises_acquire E video_id proxy_config e w Hraises)
    as (w1 & Hacq).
  pose proof (fetch_transcript_run_failure E _ _ _ _ _ Hacq) as Hfetch.
  pose proof (only_calls_fetch_transcript E video_id proxy_config w) as Hsame.
  rewrite Hfetch in Hsame. simpl in Hsame.
  destruct Hsame as (Hout & Herr & Hfiles).
  exists w1. split.
  { destruct (fetch_transcript_shape_world E video_id proxy_config w)
      as (trace & o & _ & Hworld & _).
    rewrite Hfetch in Hworld. simpl in Hworld. subst w1. now exists trace. }
  rewrite (run_script_with_arguments E prog video_id output_file rest
             proxy_config w w1 _ Harg Hfetch Hout).
  unfold write_report. fold content.
  unfold failure_record. fold content.
  rewrite Hopen, Hwrite, Hprint, Hflush, Hout, Herr, Hfiles. reflexivity.
Qed.

(** X15. The confirmation is printed inside the [try] of lines 107-113:
    when the file was written in full and that [print] raises [e], the
    handler reports [e] as an error of writing the file and the status is
    not 0, although the output file holds the complete text. *)
Theorem main_confirmation_refused (prog video_id output_file : string)
    (rest : list string) (proxy_config : pyval) (w : world) (e : exn)
    (kept : bool) :
  proxy_argument E rest proxy_config ->
  exists w1 result,
    fetch_transcript E video_id proxy_config w = (w1, Ret result) /\
    let argv := prog :: video_id :: output_file :: rest in
    let content := json_dump_text E false (Some 2%nat) result in
    (open_for_writing E output_file "utf-8" = None ->
     write_and_close E output_file content = None ->
     stdout_print E ("Transcript data written to " ++ output_file)
     = Some (e, kept) ->
     files (run_script E argv w).1 !! resolve_path E output_file = Some content /\
     (exists more,
        stderr (run_script E argv w).1
        = (stderr w ++ ("Error writing to output file: " ++ exn_str e)%string
                       :: more)%list) /\
     ((run_script E argv w).2 = 1 \/ (run_script E argv w).2 = 120) /\
     (kept = false ->
      (run_script E argv w).2 = 1 /\
      stdout (run_script E argv w).1 = stdout w)).
Proof.
  intros Harg.
  destruct (fetch_transcript_returns E video_id proxy_config w)
    as (w1 & result & Hfetch).
  exists w1, result. split; [exact Hfetch |].
  pose proof (only_calls_fetch_transcript E video_id proxy_config w) as Hsame.
  rewrite Hfetch in Hsame. simpl in Hsame.
  destruct Hsame as (Hout & Herr & Hfiles).
  cbv zeta. intros Hopen Hwrite Hprint.
  rewrite (run_script_with_arguments E prog video_id output_file rest
             proxy_config w w1 result Harg Hfetch Hout).
  unfold write_report. rewrite Hopen, Hwrite, Hprint.
  destruct kept; [destruct (exit_flush E) as [e' |] |]; simpl;
    rewrite lookup_insert_eq, Herr;
    (split; [reflexivity |]); (split; [eauto |]); (split; [auto |]);
    intros Hkept; try discriminate Hkept; auto.
Qed.

End MainMore.

(** ** The statements at work on the stub library *)

Module Scenarios.
Import Stub.

(** Scenario 1 of the spec: one segment fetched, written, status 0. *)
Example scenario_1_record :
  fetch_transcript env_hi "abc123" PyNone w0
  = (w_fetched,
     Ret (PyDict [("video_id", PyStr "abc123");
                  ("snippets", PyList [PyDict [("text", PyStr "hi");
                                               ("start", PyFloat 0%float);
                                               ("duration", PyFloat 1.5%float)]]);
                  ("total_duration", PyFloat 1.5%float);
                  ("snippet_count", PyInt 1);
                  ("success", PyBool true)])).
Proof. vm_compute. reflexivity. Qed.

Example scenario_1_status :
  (run_script env_hi ["prog"; "abc123"; "out.json"] w0).2 = 0
  /\ files (run_script env_hi ["prog"; "abc123"; "out.json"] w0).1 !! "out.json"
     = Some "{success}".
Proof. split; vm_compute; reflexivity. Qed.

(** Scenario 4 of the spec: the fetch raises, the failure record is
    written all the same, status 0. *)
Example scenario_4_status :
  (run_script env_unavailable ["prog"; "abc123"; "out.json"] w0).2 = 0
  /\ files (run_script env_unavailable ["prog"; "abc123"; "out.json"] w0).1
       !! "out.json"
     = Some "{failure}".
Proof. split; vm_compute; reflexivity. Qed.

(** A string that holds both key names passes line 29 as well; the
    indexing on the next lines then raises. *)
Example string_with_both_names :
  fetch_transcript env_hi "abc123" (PyStr "proxy_username proxy_password") w0
  = (w0, Ret (PyDict [("video_id", PyStr "abc123");
                      ("error", PyStr "string indices must be integers, not 'str'");
                      ("success", PyBool false)])).
Proof. vm_compute. reflexivity. Qed.

(** Falsy values never reach the membership test: the default client. *)
Example falsy_values_take_default_path :
  new_calls w0 (fetch_transcript env_hi "abc123" (PyInt 0) w0).1
  = [CallYouTubeTranscriptApi false; CallFetch false "abc123"]
  /\ new_calls w0 (fetch_transcript env_hi "abc123" (PyDict []) w0).1
     = [CallYouTubeTranscriptApi false; CallFetch false "abc123"].
Proof. split; vm_compute; reflexivity. Qed.

(** With both credentials the proxy client is built and fetched through. *)
Example credentials_take_proxy_path :
  new_calls w0 (fetch_transcript env_hi "abc123" credentials w0).1
  = [CallWebshareProxyConfig (PyStr "u") (PyStr "p");
     CallYouTubeTranscriptApi true; CallFetch true "abc123"].
Proof. vm_compute. reflexivity. Qed.

Lemma fetch_transcript_total_duration_witness :
  exists snippets,
    py_getitem (success_record "abc123" [hi]) "snippets" = inr (PyList snippets) /\
    match last snippets with
    | None =>
        py_getitem (success_record "abc123" [hi]) "total_duration" = inr (PyInt 0)
    | Some last_snippet =>
        exists s d,
          py_getitem last_snippet "start" = inr (PyFloat s) /\
          py_getitem last_snippet "duration" = inr (PyFloat d) /\
          py_getitem (success_record "abc123" [hi]) "total_duration"
          = inr (PyFloat (PrimFloat.add s d))
    end.
Proof.
  apply (fetch_transcript_total_duration env_hi "abc123" PyNone w0 w_fetched);
    reflexivity.
Defined.

Lemma fetch_transcript_snippet_count_witness :
  exists snippets,
    py_getitem (success_record "abc123" [hi]) "snippets" = inr (PyList snippets) /\
    py_getitem (success_record "abc123" [hi]) "snippet_count"
    = inr (PyInt (Z.of_nat (List.length snippets))).
Proof.
  apply (fetch_transcript_snippet_count env_hi "abc123" PyNone w0 w_fetched);
    reflexivity.
Defined.

Lemma fetch_transcript_catches_witness :
  exists w',
    fetch_transcript env_unavailable "abc123" PyNone w0
    = (w', Ret (PyDict [("video_id", PyStr "abc123");
                        ("error", PyStr (exn_str unavailable));
                        ("success", PyBool false)])).
Proof.
  apply (fetch_transcript_catches env_unavailable "abc123" PyNone w0 unavailable).
  apply (default_fetch_raises env_unavailable "abc123" PyNone unavailable tt).
  - left. reflexivity.
  - reflexivity.
  - reflexivity.
Defined.

Lemma fetch_transcript_snippets_witness :
  exists w' r snippets,
    fetch_transcript env_hi "abc123" PyNone w0 = (w', Ret r) /\
    py_getitem r "success" = inr (PyBool true) /\
    py_getitem r "snippets" = inr (PyList snippets) /\
    List.length snippets = List.length [hi] /\
    forall (i : nat) (segment : FetchedTranscriptSnippet),
      [hi] !! i = Some segment ->
      snippets !! i = Some (PyDict [("text", PyStr (text segment));
                                    ("start", PyFloat (start segment));
                                    ("duration", PyFloat (duration segment))]).
Proof.
  apply (fetch_transcript_snippets env_hi "abc123" PyNone w0
           (FetchedTranscript [hi])).
  apply (default_fetch_returns env_hi "abc123" PyNone (FetchedTranscript [hi]) tt).
  - left. reflexivity.
  - reflexivity.
  - reflexivity.
Defined.

Lemma fetch_transcript_membership_raises_witness :
  fetch_transcript env_hi "abc123" (PyInt 5) w0
  = (w0, Ret (PyDict [("video_id", PyStr "abc123");
                      ("error", PyStr (exn_str not_iterable));
                      ("success", PyBool false)])) /\
  new_calls w0 (fetch_transcript env_hi "abc123" (PyInt 5) w0).1 = [].
Proof.
  apply (fetch_transcript_membership_raises env_hi "abc123" (PyInt 5) w0
           not_iterable); reflexivity.
Defined.

(** C4 as the spec words it fails twice over.  With [proxy_config = 5]
    the credentials are not there, yet the default client is not built
    either; and with both credentials there but refused by the library,
    no proxy client is constructed or used. *)
Lemma proxy_choice_spec_fails :
  ~ proxy_choice_spec env_hi "abc123" (PyInt 5) w0 /\
  ~ proxy_choice_spec env_proxy_refused "abc123" credentials w0.
Proof.
  split.
  - intros [_ Hdefault].
    destruct (Hdefault eq_refl) as [Hpath _].
    vm_compute in Hpath. discriminate Hpath.
  - intros [[_ Hused] _].
    specialize (Hused eq_refl).
    vm_compute in Hused. discriminate Hused.
Qed.

Lemma fetch_transcript_proxy_choice_witness :
  let trace := new_calls w0 (fetch_transcript env_hi "abc123" credentials w0).1 in
  (uses_proxy_client "abc123" trace = true <->
   spec_has_credentials credentials = true /\ proxy_client_built env_hi credentials) /\
  (spec_has_credentials credentials = true ->
   (exists u p rest, trace = CallWebshareProxyConfig u p :: rest) /\
   forallb is_proxy_call trace = true) /\
  (spec_has_credentials credentials = false ->
   uses_default_client trace = true /\ proxy_never_invoked trace = true /\
   forall ytt_api,
     YouTubeTranscriptApi env_hi None = inr ytt_api ->
     trace = [CallYouTubeTranscriptApi false; CallFetch false "abc123"]).
Proof.
  apply (fetch_transcript_proxy_choice env_hi "abc123" credentials w0).
  right. exists [("proxy_username", PyStr "u"); ("proxy_password", PyStr "p")].
  reflexivity.
Defined.

Lemma main_usage_witness :
  run_script env_hi ["prog"; "abc123"] w0
  = (with_stderr w0
       "Usage: python youtube_transcript_fetcher.py <video_id> <output_file> [proxy_config_json]",
     1).
Proof.
  apply (main_usage env_hi ["prog"; "abc123"] w0). simpl. lia.
Defined.

Lemma main_invalid_json_witness :
  run_script env_hi ["prog"; "abc123"; "out.json"; "not-json"] w0
  = (with_stderr w0 "Invalid proxy configuration JSON", 1).
Proof.
  apply (main_invalid_json env_hi ["prog"; "abc123"; "out.json"; "not-json"]
           "not-json" bad_json w0); reflexivity.
Defined.



(** The same run, spelled out. *)
Example stdout_refuses_status :
  run_script env_stdout_refuses ["prog"; "abc123"; "out.json"] w0
  = (mkWorld (calls w_fetched) []
       ["Error writing to output file: 'ascii' codec can't encode character"]
       (<["out.json" := "{success}"]> ∅), 1).
Proof. vm_compute. reflexivity. Qed.

(** The flush failing at exit: confirmation taken in, status 120. *)
Example flush_fails_status :
  run_script env_flush_fails ["prog"; "abc123"; "out.json"] w0
  = (mkWorld (calls w_fetched) ["Transcript data written to out.json"]
       ["report: [Errno 32] Broken pipe"]
       (<["out.json" := "{success}"]> ∅), 120).
Proof. vm_compute. reflexivity. Qed.

(** Two spellings of one file: the run writes the file both name. *)
Example dotted_path_names_same_file :
  files (run_script env_hi ["prog"; "abc123"; "./out.json"] w0).1 !! "out.json"
  = Some "{success}".
Proof. vm_compute. reflexivity. Qed.

(** A file that cannot be opened: the error is reported, status 1. *)
Example read_only_status :
  run_script env_read_only ["prog"; "abc123"; "out.json"] w0
  = (with_stderr w_fetched
       "Error writing to output file: [Errno 13] Permission denied: 'out.json'", 1).
Proof. vm_compute. reflexivity. Qed.

Lemma fetch_transcript_effects_witness :
  stdout w_fetched = stdout w0 /\ stderr w_fetched = stderr w0 /\
  files w_fetched = files w0 /\ calls w0 `prefix_of` calls w_fetched.
Proof.
  apply (fetch_transcript_effects env_hi "abc123" PyNone w0 w_fetched
           (Ret (success_record "abc123" [hi]))).
  reflexivity.
Defined.

Lemma fetch_transcript_success_after_fetch_witness :
  exists with_proxy, last (calls w_fetched) = Some (CallFetch with_proxy "abc123").
Proof.
  apply (fetch_transcript_success_after_fetch env_hi "abc123" PyNone w0 w_fetched
           (success_record "abc123" [hi])); reflexivity.
Defined.

Lemma fetch_transcript_default_path_witness :
  let trace := new_calls w0 (fetch_transcript env_hi "abc123" (PyStr "hello") w0).1 in
  uses_default_client trace = true /\ proxy_never_invoked trace = true.
Proof.
  apply (fetch_transcript_default_path env_hi "abc123" (PyStr "hello") w0).
  right. left. reflexivity.
Defined.

Lemma fetch_transcript_names_in_non_mapping_witness :
  exists e,
    exn_cls e = TypeError /\
    fetch_transcript env_hi "abc123" both_names w0
    = (w0, Ret (PyDict [("video_id", PyStr "abc123");
                        ("error", PyStr (exn_str e));
                        ("success", PyBool false)])).
Proof.
  apply (fetch_transcript_names_in_non_mapping env_hi "abc123" both_names w0).
  - left. exists "proxy_username proxy_password". reflexivity.
  - reflexivity.
  - reflexivity.
Defined.

Lemma fetch_transcript_forwards_credentials_witness :
  exists u p rest,
    py_getitem credentials "proxy_username" = inr u /\
    py_getitem credentials "proxy_password" = inr p /\
    new_calls w0 (fetch_transcript env_hi "abc123" credentials w0).1
    = CallWebshareProxyConfig u p :: rest.
Proof.
  apply (fetch_transcript_forwards_credentials env_hi "abc123"
           [("proxy_username", PyStr "u"); ("proxy_password", PyStr "p")] w0).
  reflexivity.
Defined.

Lemma fetch_transcript_variants_witness :
  (py_getitem (failure_record "abc123" unavailable) "success" = inr (PyBool true) /\
   (exists e, py_getitem (failure_record "abc123" unavailable) "error" = inl e /\
              exn_cls e = KeyError)) \/
  (py_getitem (failure_record "abc123" unavailable) "success" = inr (PyBool false) /\
   (exists message,
      py_getitem (failure_record "abc123" unavailable) "error"
      = inr (PyStr message)) /\
   (forall key, key = "snippets" \/ key = "total_duration" \/ key = "snippet_count" ->
      exists e, py_getitem (failure_record "abc123" unavailable) key = inl e /\
                exn_cls e = KeyError)).
Proof.
  apply (fetch_transcript_variants env_unavailable "abc123" PyNone w0 w_fetched).
  reflexivity.
Defined.

Lemma fetch_transcript_snippets_injective_witness : [hi] = [hi].
Proof.
  apply (fetch_transcript_snippets_injective env_hi "abc123" "abc123"
           PyNone PyNone [hi] [hi] w0 w0 w_fetched w_fetched
           (success_record "abc123" [hi]) (success_record "abc123" [hi])).
  - apply (default_fetch_returns env_hi "abc123" PyNone _ tt);
      [left |..]; reflexivity.
  - apply (default_fetch_returns env_hi "abc123" PyNone _ tt);
      [left |..]; reflexivity.
  - reflexivity.
  - reflexivity.
  - reflexivity.
Defined.

Lemma main_other_loads_exception_witness :
  run_script env_too_deep ["prog"; "abc123"; "out.json"; "[[[["] w0
  = (with_stderr w0 (excepthook_text env_too_deep too_deep), 1).
Proof.
  apply (main_other_loads_exception env_too_deep
           ["prog"; "abc123"; "out.json"; "[[[["] "[[[[" too_deep w0).
  - reflexivity.
  - reflexivity.
  - simpl. discriminate.
Defined.


Lemma main_writes_only_output_file_witness :
  files (run_script env_hi ["prog"; "abc123"; "./out.json"] w0).1 !! "other.json"
  = files w0 !! "other.json".
Proof.
  apply (main_writes_only_output_file env_hi ["prog"; "abc123"; "./out.json"]
           "other.json" w0).
  intros output_file Hargv. injection Hargv as <-. vm_compute. discriminate.
Defined.

Lemma main_fetch_failure_not_fatal_witness :
  exists w1,
    calls w0 `prefix_of` calls w1 /\
    run_script env_unavailable ["prog"; "abc123"; "out.json"] w0
    = (mkWorld (calls w1)
         (stdout w0 ++ ["Transcript data written to " ++ "out.json"])
         (stderr w0)
         (<[resolve_path env_unavailable "out.json" :=
              json_dump_text env_unavailable false (Some 2%nat)
                (PyDict [("video_id", PyStr "abc123");
                         ("error", PyStr (exn_str unavailable));
                         ("success", PyBool false)])]> (files w0)), 0).
Proof.
  apply (main_fetch_failure_not_fatal env_unavailable "prog" "abc123" "out.json"
           [] PyNone w0 unavailable); try reflexivity.
  apply (default_fetch_raises env_unavailable "abc123" PyNone unavailable tt);
    [left |..]; reflexivity.
Defined.

Lemma main_confirmation_refused_witness :
  exists w1 result,
    fetch_transcript env_stdout_refuses "abc123" PyNone w0 = (w1, Ret result) /\
    let argv := ["prog"; "abc123"; "out.json"] in
    let content := json_dump_text env_stdout_refuses false (Some 2%nat) result in
    (open_for_writing env_stdout_refuses "out.json" "utf-8" = None ->
     write_and_close env_stdout_refuses "out.json" content = None ->
     stdout_print env_stdout_refuses ("Transcript data written to " ++ "out.json")
     = Some (cannot_encode, false) ->
     files (run_script env_stdout_refuses argv w0).1
       !! resolve_path env_stdout_refuses "out.json" = Some content /\
     (exists more,
        stderr (run_script env_stdout_refuses argv w0).1
        = (stderr w0
           ++ ("Error writing to output file: " ++ exn_str cannot_encode)%string
              :: more)%list) /\
     ((run_script env_stdout_refuses argv w0).2 = 1 \/
      (run_script env_stdout_refuses argv w0).2 = 120) /\
     (false = false ->
      (run_script env_stdout_refuses argv w0).2 = 1 /\
      stdout (run_script env_stdout_refuses argv w0).1 = stdout w0)).
Proof.
  apply (main_confirmation_refused env_stdout_refuses "prog" "abc123" "out.json"
           [] PyNone w0 cannot_encode false).
  reflexivity.
Defined.

End Scenarios.
